(** * i2c.c: an LTR-390UV light sensor driven over an I2C bridge

    A shallow embedding of [i2c.c] and the properties of its register
    codec (the [set_*] writers and the [print_*] switches), of [msleep],
    and of the session that [main] runs against the transport.

    Conventions.
    - C integers are [Z]; a conversion to [uint8_t] or [uint32_t] is
      written out as a reduction modulo [2^8] or [2^32].
    - The enumerations are inductive types; [enum_val] gives the integer
      constant of each enumerator.  A value that comes back from the
      device is a plain [Z], as a C enum object can hold any integer.
    - The transport ([i2cdriver.h]) is an interface: a type class whose
      operations thread the state of the bus.
    - Code runs in a state-and-output monad: it threads the [world] and
      produces the list of the events it caused, each stamped with the
      time the process had slept when it happened. *)

From Stdlib Require Import ZArith List String Ascii Lia Bool.
From Stdlib Require DecimalString HexadecimalString.
Import ListNotations.
Open Scope Z_scope.

(** ** Constants of the source *)

Definition DEVICE : Z := 0x53.

Definition MAIN_CTRL_REG : Z := 0x00.
Definition RES_MEAS_RATE_REG : Z := 0x04.
Definition GAIN_REG : Z := 0x05.
Definition PART_ID_REG : Z := 0x06.
Definition MAIN_STATUS_REG : Z := 0x07.
Definition UV_DATA_REG : Z := 0x10.
Definition INT_CONF_REG : Z := 0x19.

(** [stdlib.h] and [errno.h] on Linux. *)
Definition EXIT_SUCCESS : Z := 0.
Definition EXIT_FAILURE : Z := 1.
Definition EINTR : Z := 4.
Definition EINVAL : Z := 22.

(** ** Enumerations *)

Inductive measurement_mode_t := ALS_MODE | UVS_MODE.

Inductive gain_t := GAIN_1 | GAIN_3 | GAIN_6 | GAIN_9 | GAIN_18.

Inductive resolution_t :=
  RES_20_BIT | RES_19_BIT | RES_18_BIT | RES_17_BIT | RES_16_BIT | RES_13_BIT.

Inductive meas_rate_t :=
  RATE_25 | RATE_50 | RATE_100 | RATE_200 | RATE_500 | RATE_1000 | RATE_2000.

(** The integer constant an enumerator stands for. *)
Class CEnum (E : Type) := { enum_val : E -> Z }.

#[global] Instance measurement_mode_enum : CEnum measurement_mode_t :=
  {| enum_val m := match m with ALS_MODE => 0x02 | UVS_MODE => 0x0A end |}.

#[global] Instance gain_enum : CEnum gain_t :=
  {| enum_val g :=
       match g with
       | GAIN_1 => 0 | GAIN_3 => 1 | GAIN_6 => 2 | GAIN_9 => 3 | GAIN_18 => 4
       end |}.

#[global] Instance resolution_enum : CEnum resolution_t :=
  {| enum_val r :=
       match r with
       | RES_20_BIT => 0 | RES_19_BIT => 1 | RES_18_BIT => 2
       | RES_17_BIT => 3 | RES_16_BIT => 4 | RES_13_BIT => 5
       end |}.

#[global] Instance meas_rate_enum : CEnum meas_rate_t :=
  {| enum_val t :=
       match t with
       | RATE_25 => 0 | RATE_50 => 1 | RATE_100 => 2 | RATE_200 => 3
       | RATE_500 => 4 | RATE_1000 => 5 | RATE_2000 => 6
       end |}.

(** ** Integer conversions and [printf] conversions *)

Definition to_uint8 (x : Z) : Z := x mod 2 ^ 8.
Definition to_uint32 (x : Z) : Z := x mod 2 ^ 32.

Definition nl : string := String (ascii_of_nat 10) EmptyString.

Definition dec (x : Z) : string :=
  DecimalString.NilZero.string_of_uint (N.to_uint (Z.to_N x)).
Definition hex (x : Z) : string :=
  HexadecimalString.NilZero.string_of_uint (N.to_hex_uint (Z.to_N x)).

(** [%u], [%hhu] and [%hhx]. *)
Definition fmt_u (x : Z) : string := dec (to_uint32 x).
Definition fmt_hhu (x : Z) : string := dec (to_uint8 x).
Definition fmt_hhx (x : Z) : string := hex (to_uint8 x).

(** ** A [switch] over enumerators

    The case labels of a [switch], in the order of the source, each with
    the text its branch prints.  [switch] selects the branch whose label
    has the scrutinee's value; [None] is the [default:] branch. *)

Fixpoint switch {E} `{CEnum E} (cases : list (E * string)) (x : Z)
  : option (E * string) :=
  match cases with
  | [] => None
  | (e, s) :: cases' => if x =? enum_val e then Some (e, s) else switch cases' x
  end.

(** What a [print_*] function recognised: the enumerator of the branch
    taken, or the raw value that the [default:] branch prints. *)
Inductive decoded (E : Type) :=
| Known (e : E)
| Unknown (raw : Z).
Arguments Known {E} e.
Arguments Unknown {E} raw.

Definition decode {E} `{CEnum E} (cases : list (E * string)) (x : Z) : decoded E :=
  match switch cases x with
  | Some (e, _) => Known e
  | None => Unknown x
  end.

Definition mode_cases : list (measurement_mode_t * string) :=
  [ (ALS_MODE, "mode: ALS" ++ nl); (UVS_MODE, "mode: UVS" ++ nl) ]%string.

Definition gain_cases : list (gain_t * string) :=
  [ (GAIN_1, "gain: 1" ++ nl); (GAIN_3, "gain: 3" ++ nl);
    (GAIN_6, "gain: 6" ++ nl); (GAIN_9, "gain: 9" ++ nl);
    (GAIN_18, "gain: 18" ++ nl) ]%string.

Definition resolution_cases : list (resolution_t * string) :=
  [ (RES_16_BIT, "resolution: 16 Bit" ++ nl);
    (RES_17_BIT, "resolution: 17 Bit" ++ nl);
    (RES_18_BIT, "resolution: 18 Bit" ++ nl);
    (RES_19_BIT, "resolution: 19 Bit" ++ nl);
    (RES_20_BIT, "resolution: 20 Bit" ++ nl) ]%string.

Definition rate_cases : list (meas_rate_t * string) :=
  [ (RATE_25, "measurement rate: 25ms" ++ nl);
    (RATE_50, "measurement rate: 50ms" ++ nl);
    (RATE_100, "measurement rate: 100ms" ++ nl);
    (RATE_200, "measurement rate: 200ms" ++ nl);
    (RATE_500, "measurement rate: 500ms" ++ nl);
    (RATE_1000, "measurement rate: 1000ms" ++ nl);
    (RATE_2000, "measurement rate: 2000ms" ++ nl) ]%string.

(** The text [print_mode] and [print_gain] write. *)
Definition mode_text (mode : Z) : string :=
  match switch mode_cases mode with
  | Some (_, s) => s
  | None => ("Unknown mode: " ++ fmt_u mode ++ nl)%string
  end.

Definition gain_text (gain : Z) : string :=
  match switch gain_cases gain with
  | Some (_, s) => s
  | None => ("Unknown gain: " ++ fmt_u gain ++ nl)%string
  end.

(** The two fields [print_res_meas_rate] takes out of the register byte,
    each a [uint8_t]. *)
Definition resolution_field (res_meas_rate : Z) : Z :=
  to_uint8 (Z.shiftr res_meas_rate 4).
Definition measurement_rate_field (res_meas_rate : Z) : Z :=
  to_uint8 (Z.land res_meas_rate 0x0f).

Definition resolution_text (resolution : Z) : string :=
  match switch resolution_cases resolution with
  | Some (_, s) => s
  | None => ("Unknown resolution: " ++ fmt_hhu resolution ++ nl)%string
  end.

Definition measurement_rate_text (measurement_rate : Z) : string :=
  match switch rate_cases measurement_rate with
  | Some (_, s) => s
  | None => ("Unknown measurement rate: " ++ fmt_hhu measurement_rate ++ nl)%string
  end.

(** The codec read off the source: what the writers put into a register
    and what the printers recognise in one. *)
Definition encode_mode (mode : measurement_mode_t) : Z := to_uint8 (enum_val mode).
Definition encode_gain (gain : gain_t) : Z := to_uint8 (enum_val gain).
Definition encode_res_rate (resolution : resolution_t) (rate : meas_rate_t) : Z :=
  to_uint8 (Z.lor (Z.shiftl (enum_val resolution) 4) (enum_val rate)).

Definition decode_mode (mode : Z) : decoded measurement_mode_t :=
  decode mode_cases mode.
Definition decode_gain (gain : Z) : decoded gain_t := decode gain_cases gain.
Definition decode_resolution (resolution : Z) : decoded resolution_t :=
  decode resolution_cases resolution.
Definition decode_rate (measurement_rate : Z) : decoded meas_rate_t :=
  decode rate_cases measurement_rate.
Definition decode_res_rate (res_meas_rate : Z)
  : decoded resolution_t * decoded meas_rate_t :=
  (decode_resolution (resolution_field res_meas_rate),
   decode_rate (measurement_rate_field res_meas_rate)).

(** [data2 << 16 | data1 << 8 | data0], computed in [int] and stored in
    a [uint32_t]. *)
Definition raw_data (data0 data1 data2 : Z) : Z :=
  to_uint32 (Z.lor (Z.lor (Z.shiftl data2 16) (Z.shiftl data1 8)) data0).

(** ** The transport and the world

    [i2cdriver.h] is the interface of the USB-to-I2C bridge; its
    operations are external and thread the state of the bus.  A read
    hands back its success flag and the bytes it stored into the caller's
    buffer, from index 0 on. *)

Class I2CDriver := {
  bus : Type;
  i2c_handle : Type;
  i2c_connect : string -> bus -> option i2c_handle * bus;
  i2c_disconnect : i2c_handle -> bus -> bus;
  i2c_read_register : i2c_handle -> Z -> Z -> Z -> bus -> (bool * list Z) * bus;
  i2c_write_register : i2c_handle -> Z -> Z -> list Z -> bus -> bool * bus;
}.

(** An argument of a variadic logging macro. *)
Inductive vararg :=
| ArgZ (z : Z)
| ArgS (s : string).

(** What the process does to its surroundings.  The macros of [error.h]
    are recorded by their format and arguments. *)
Inductive event :=
| EvConnect (path : string) (ok : bool)
| EvDisconnect
| EvRead (dev reg count : Z)
| EvWrite (dev reg : Z) (bytes : list Z)
| EvStdout (text : string)
| EvLogError (fmt : string) (args : list vararg)
| EvLogExit (fmt : string) (args : list vararg)
| EvDbgPrint (fmt : string) (args : list vararg).

Record timespec := { tv_sec : Z; tv_nsec : Z }.

Definition timespec_ns (ts : timespec) : Z :=
  tv_sec ts * 1000000000 + tv_nsec ts.

Definition timespec_of_ns (ns : Z) : timespec :=
  {| tv_sec := ns / 1000000000; tv_nsec := ns mod 1000000000 |}.

Definition timespec_valid (ts : timespec) : bool :=
  (0 <=? tv_sec ts) && (0 <=? tv_nsec ts) && (tv_nsec ts <? 1000000000).

Section Session.

Context {driver : I2CDriver}.

(** The surroundings of the process: the bus, [errno], the signals that
    are still to arrive (for each, the time the process sleeps from the
    start of its next [nanosleep] until the signal is delivered), and
    [clock], the nanoseconds the process has slept so far. *)
Record world := {
  w_bus : bus;
  errno : Z;
  signals : list Z;
  clock : Z;
}.

Definition with_bus (b : bus) (w : world) : world :=
  {| w_bus := b; errno := errno w; signals := signals w; clock := clock w |}.

Definition with_errno (e : Z) (w : world) : world :=
  {| w_bus := w_bus w; errno := e; signals := signals w; clock := clock w |}.

(** A computation: from a world to its result, the world it leaves and
    the events it caused, each with the [clock] at which it happened. *)
Definition IO (A : Type) : Type := world -> A * world * list (Z * event).

Definition ret {A} (a : A) : IO A := fun w => (a, w, []).

Definition bind {A B} (m : IO A) (k : A -> IO B) : IO B :=
  fun w =>
    let '(a, w1, t1) := m w in
    let '(b, w2, t2) := k a w1 in
    (b, w2, t1 ++ t2).

Definition emit (e : event) : IO unit := fun w => (tt, w, [(clock w, e)]).

Definition result {A} (r : A * world * list (Z * event)) : A := fst (fst r).
Definition final {A} (r : A * world * list (Z * event)) : world := snd (fst r).
Definition events {A} (r : A * world * list (Z * event)) : list (Z * event) :=
  snd r.

End Session.

Notation "x <- m ;; k" := (bind m (fun x => k))
  (at level 61, m at next level, right associativity).
Notation "m ;; k" := (bind m (fun _ => k))
  (at level 61, right associativity).

Section Program.

Context {driver : I2CDriver}.

Local Open Scope string_scope.
Local Open Scope Z_scope.

(** *** Library calls *)

Definition printf (text : string) : IO unit := emit (EvStdout text).

Definition connect (path : string) : IO (option i2c_handle) :=
  fun w =>
    let '(sd, b) := i2c_connect path (w_bus w) in
    (sd, with_bus b w,
     [(clock w, EvConnect path (match sd with Some _ => true | None => false end))]).

Definition disconnect (sd : i2c_handle) : IO unit :=
  fun w => (tt, with_bus (i2c_disconnect sd (w_bus w)) w, [(clock w, EvDisconnect)]).

Definition read_register (sd : i2c_handle) (dev reg count : Z)
  : IO (bool * list Z) :=
  fun w =>
    let '(r, b) := i2c_read_register sd dev reg count (w_bus w) in
    (r, with_bus b w, [(clock w, EvRead dev reg count)]).

Definition write_register (sd : i2c_handle) (dev reg : Z) (buffer : list Z)
  : IO bool :=
  fun w =>
    let '(ok, b) := i2c_write_register sd dev reg buffer (w_bus w) in
    (ok, with_bus b w, [(clock w, EvWrite dev reg buffer)]).

(** A one-byte buffer after a read: the byte the driver stored, or the
    value the buffer was initialised with when it stored none. *)
Definition buffer_byte (init : Z) (r : bool * list Z) : Z :=
  to_uint8 (hd init (snd r)).

(** [nanosleep (req, rem)] as POSIX gives it: an invalid request fails
    with [EINVAL]; a signal delivered before the request has elapsed
    ends the call with [EINTR] and the time left in [rem]; otherwise
    the request elapses, the call gives 0 and [rem] is left alone.  The
    result is the return value and the content of [rem]. *)
Definition nanosleep (req rem : timespec) : IO (Z * timespec) :=
  fun w =>
    if negb (timespec_valid req) then ((-1, rem), with_errno EINVAL w, [])
    else
      let d := timespec_ns req in
      match signals w with
      | g :: rest =>
          let g := Z.max 0 g in
          if g <? d then
            ((-1, timespec_of_ns (d - g)),
             {| w_bus := w_bus w; errno := EINTR; signals := rest;
                clock := clock w + g |}, [])
          else
            ((0, rem),
             {| w_bus := w_bus w; errno := errno w; signals := (g - d) :: rest;
                clock := clock w + d |}, [])
      | [] =>
          ((0, rem),
           {| w_bus := w_bus w; errno := errno w; signals := [];
              clock := clock w + d |}, [])
      end.

(** Modelled from the spec: the macros of [error.h], which is not
    among the sources.  [logError] and [dbgPrint] report and return.
    [logExit] is the fatal path of the identity check: it reports and
    the process terminates with failure; its result is the exit status.
    It is handed the format and the part id only, never the handle. *)
Definition logError (fmt : string) (args : list vararg) : IO unit :=
  emit (EvLogError fmt args).

Definition dbgPrint (fmt : string) (args : list vararg) : IO unit :=
  emit (EvDbgPrint fmt args).

Definition logExit (fmt : string) (args : list vararg) : IO Z :=
  emit (EvLogExit fmt args) ;; ret EXIT_FAILURE.

(** *** [msleep] *)

(** The [do ... while (res && errno == EINTR)] loop around
    [nanosleep (&ts, &ts)]: the time left is written over the request.
    [None] when [fuel] rounds did not finish it. *)
Fixpoint msleep_loop (fuel : nat) (ts : timespec) (w : world)
  : option (Z * world) :=
  match fuel with
  | O => None
  | S fuel' =>
      let '((res, ts'), w', _) := nanosleep ts ts w in
      if negb (res =? 0) && (errno w' =? EINTR)
      then msleep_loop fuel' ts' w'
      else Some (res, w')
  end.

(** Every round but the last consumes a pending signal, so one round
    more than there are signals finishes the loop
    ([msleep_loop_enough]). *)
Definition msleep (msec : Z) : IO bool :=
  fun w =>
    if msec <? 0 then (false, with_errno EINVAL w, [])
    else
      let ts := {| tv_sec := Z.quot msec 1000;
                   tv_nsec := Z.rem msec 1000 * 1000000 |} in
      match msleep_loop (S (List.length (signals w))) ts w with
      | Some (res, w') => (res =? 0, w', [])
      | None => (false, w, [])
      end.

(** *** Register access *)

Definition get_int_conf_reg (sd : i2c_handle) : IO Z :=
  r <- read_register sd DEVICE INT_CONF_REG 1 ;;
  ret (buffer_byte 0 r).

Definition get_status (sd : i2c_handle) : IO Z :=
  r <- read_register sd DEVICE MAIN_STATUS_REG 1 ;;
  ret (buffer_byte 0 r).

Definition set_int_conf_reg (sd : i2c_handle) (val : Z) : IO bool :=
  write_register sd DEVICE INT_CONF_REG [to_uint8 val].

Definition get_part_id (sd : i2c_handle) : IO Z :=
  r <- read_register sd DEVICE PART_ID_REG 1 ;;
  ret (buffer_byte 0 r).

Definition set_mode (sd : i2c_handle) (mode : measurement_mode_t) : IO bool :=
  write_register sd DEVICE MAIN_CTRL_REG [encode_mode mode].

Definition get_mode (sd : i2c_handle) : IO Z :=
  r <- read_register sd DEVICE MAIN_CTRL_REG 1 ;;
  ret (buffer_byte 0 r).

Definition print_mode (mode : Z) : IO unit := printf (mode_text mode).

Definition set_res_meas_rate (sd : i2c_handle)
    (resolution : resolution_t) (rate : meas_rate_t) : IO bool :=
  write_register sd DEVICE RES_MEAS_RATE_REG [encode_res_rate resolution rate].

Definition get_res_meas_rate (sd : i2c_handle) : IO Z :=
  r <- read_register sd DEVICE RES_MEAS_RATE_REG 1 ;;
  ret (buffer_byte 0 r).

Definition print_res_meas_rate (res_meas_rate : Z) : IO unit :=
  let resolution := resolution_field res_meas_rate in
  printf (resolution_text resolution) ;;
  let measurement_rate := measurement_rate_field res_meas_rate in
  printf (measurement_rate_text measurement_rate).

Definition set_gain (sd : i2c_handle) (gain : gain_t) : IO bool :=
  write_register sd DEVICE GAIN_REG [encode_gain gain].

Definition get_gain (sd : i2c_handle) : IO Z :=
  r <- read_register sd DEVICE GAIN_REG 1 ;;
  ret (buffer_byte 0 r).

Definition print_gain (gain : Z) : IO unit := printf (gain_text gain).

Definition read_raw_data (sd : i2c_handle) : IO Z :=
  r0 <- read_register sd DEVICE (UV_DATA_REG + 0) 1 ;;
  let data0 := buffer_byte 0 r0 in
  r1 <- read_register sd DEVICE (UV_DATA_REG + 1) 1 ;;
  let data1 := buffer_byte 0 r1 in
  r2 <- read_register sd DEVICE (UV_DATA_REG + 2) 1 ;;
  let data2 := buffer_byte 0 r2 in
  dbgPrint ("%hhu %hhu %hhu" ++ nl) [ArgZ data0; ArgZ data1; ArgZ data2] ;;
  ret (raw_data data0 data1 data2).

(** *** [main] *)

(** [for (int i = start; i < bound; i++) body]. *)
Fixpoint for_from (n : nat) (i : Z) (body : Z -> IO unit) : IO unit :=
  match n with
  | O => ret tt
  | S n' => body i ;; for_from n' (i + 1) body
  end.

Definition for_lt (start bound : Z) (body : Z -> IO unit) : IO unit :=
  for_from (Z.to_nat (bound - start)) start body.

Definition separator : string := "--------------------" ++ nl.

(** The block under [// MODE]. *)
Definition main_mode (sd : i2c_handle) : IO unit :=
  mode <- get_mode sd ;;
  printf ("mode raw: 0x" ++ fmt_hhx mode ++ nl) ;;
  print_mode mode ;;
  printf ("Setting mode to UVS_MODE." ++ nl) ;;
  set_mode sd UVS_MODE ;;
  mode <- get_mode sd ;;
  print_mode mode.

(** The block under [// GAIN]. *)
Definition main_gain (sd : i2c_handle) : IO unit :=
  gain <- get_gain sd ;;
  printf ("gain raw: " ++ fmt_u gain ++ nl) ;;
  print_gain gain ;;
  printf ("Setting gain to 18." ++ nl) ;;
  set_gain sd GAIN_18 ;;
  gain <- get_gain sd ;;
  print_gain gain.

(** The block under [// RESOLUTION & MEASUREMENT RATE]. *)
Definition main_res_meas_rate (sd : i2c_handle) : IO unit :=
  res_meas_rate <- get_res_meas_rate sd ;;
  print_res_meas_rate res_meas_rate ;;
  printf ("Setting resolution to 18 bit and rate to 100ms." ++ nl) ;;
  set_res_meas_rate sd RES_18_BIT RATE_100 ;;
  res_meas_rate <- get_res_meas_rate sd ;;
  print_res_meas_rate res_meas_rate.

(** The body of the [for] loop. *)
Definition main_poll (sd : i2c_handle) : IO unit :=
  status <- get_status sd ;;
  printf ("Status: " ++ fmt_hhx status ++ nl) ;;
  int_conf <- get_int_conf_reg sd ;;
  printf ("Config Register: " ++ fmt_hhx int_conf ++ nl) ;;
  set_int_conf_reg sd 0x30 ;;
  raw <- read_raw_data sd ;;
  printf ("raw data: " ++ fmt_u raw ++ nl) ;;
  msleep 100 ;;
  ret tt.

(** What [main] does once the part id has been accepted. *)
Definition main_session (sd : i2c_handle) (part_id : Z) : IO Z :=
  printf ("part id: 0x" ++ fmt_hhx part_id ++ nl) ;;
  printf separator ;;
  main_mode sd ;;
  printf separator ;;
  main_gain sd ;;
  printf separator ;;
  main_res_meas_rate sd ;;
  printf separator ;;
  for_lt 0 10 (fun _ => main_poll sd) ;;
  disconnect sd ;;
  ret EXIT_SUCCESS.

(** The result is the exit status of the process: of [exit], of
    [logExit], or 0 when control reaches the end of [main].  [argv]
    holds the [argc] arguments, the name of the program first; with an
    empty [argv] the C program hands a null [argv[0]] to [%s], which is
    undefined, and the usage line of the model says nothing about it. *)
Definition main (argv : list string) : IO Z :=
  let argc := Z.of_nat (List.length argv) in
  if argc <? 2 then
    printf ("Usage: " ++ nth 0 argv EmptyString ++ " <USB-DEVICE-TO-FT230-CHIP>" ++ nl) ;;
    ret EXIT_FAILURE
  else
    c <- connect (nth 1 argv EmptyString) ;;
    match c with
    | None =>
        logError ("Could not connect to %s" ++ nl) [ArgS (nth 1 argv EmptyString)] ;;
        ret EXIT_FAILURE
    | Some sd =>
        part_id <- get_part_id sd ;;
        if negb (part_id =? 0xb2)
        then logExit "Wrong Part ID: %hhu" [ArgZ part_id]
        else main_session sd part_id
    end.

End Program.

(** ** A simulated sensor

    A transport that answers from a register file and stores what is
    written, one byte per register; it connects when the bridge is
    plugged in. *)
Module Sim.

Record sim_bus := { regs : Z -> Z; plugged : bool }.

Definition store (reg v : Z) (f : Z -> Z) : Z -> Z :=
  fun r => if r =? reg then v else f r.

Fixpoint store_bytes (reg : Z) (bytes : list Z) (f : Z -> Z) : Z -> Z :=
  match bytes with
  | [] => f
  | v :: bytes' => store_bytes (reg + 1) bytes' (store reg v f)
  end.

Definition load_bytes (reg count : Z) (f : Z -> Z) : list Z :=
  map (fun i => f (reg + Z.of_nat i)) (seq 0 (Z.to_nat count)).

Definition sim_driver : I2CDriver :=
  {| bus := sim_bus;
     i2c_handle := unit;
     i2c_connect _ b := (if plugged b then Some tt else None, b);
     i2c_disconnect _ b := b;
     i2c_read_register _ _ reg count b := ((true, load_bytes reg count (regs b)), b);
     i2c_write_register _ _ reg bytes b :=
       (true, {| regs := store_bytes reg bytes (regs b); plugged := plugged b |}) |}.

(** A register file: the listed registers, 0 elsewhere. *)
Fixpoint regfile (l : list (Z * Z)) : Z -> Z :=
  match l with
  | [] => fun _ => 0
  | (reg, v) :: l' => store reg v (regfile l')
  end.

Definition sim_world (l : list (Z * Z)) (sigs : list Z) : @world sim_driver :=
  {| w_bus := ({| regs := regfile l; plugged := true |} : @bus sim_driver);
     errno := 0; signals := sigs; clock := 0 |}.

End Sim.

(** * Properties *)

(** ** The register codec *)

Section Codec.

Local Open Scope string_scope.
Local Open Scope Z_scope.

Lemma to_uint8_small (x : Z) : 0 <= x < 256 -> to_uint8 x = x.
Proof. intros Hx. unfold to_uint8. apply Z.mod_small. lia. Qed.

Lemma to_uint8_range (x : Z) : 0 <= to_uint8 x < 256.
Proof. unfold to_uint8. apply Z.mod_pos_bound. lia. Qed.

Lemma to_uint32_small (x : Z) : 0 <= x < 2 ^ 32 -> to_uint32 x = x.
Proof. intros Hx. unfold to_uint32. now apply Z.mod_small. Qed.

Lemma fmt_u_byte (x : Z) : 0 <= x < 256 -> fmt_u x = dec x.
Proof. intros Hx. unfold fmt_u. rewrite to_uint32_small; [reflexivity | lia]. Qed.

Lemma fmt_hhu_byte (x : Z) : 0 <= x < 256 -> fmt_hhu x = dec x.
Proof. intros Hx. unfold fmt_hhu. now rewrite to_uint8_small. Qed.

(** The fields of a byte put together from two nibbles. *)
Lemma resolution_field_pack (hi lo : Z) :
  0 <= hi < 16 -> 0 <= lo < 16 ->
  resolution_field (Z.lor (Z.shiftl hi 4) lo) = hi.
Proof.
  intros Hhi Hlo. unfold resolution_field.
  rewrite Z.shiftr_lor, Z.shiftr_shiftl_l, Z.sub_diag, Z.shiftl_0_r by lia.
  rewrite (Z.shiftr_div_pow2 lo 4), Z.div_small, Z.lor_0_r by lia.
  apply to_uint8_small. lia.
Qed.

Lemma measurement_rate_field_pack (hi lo : Z) :
  0 <= hi < 16 -> 0 <= lo < 16 ->
  measurement_rate_field (Z.lor (Z.shiftl hi 4) lo) = lo.
Proof.
  intros Hhi Hlo. unfold measurement_rate_field.
  change 0x0f with (Z.ones 4).
  rewrite Z.land_ones, Z.shiftl_mul_pow2 by lia.
  rewrite <- Z.land_ones, Z.land_lor_distr_l, !Z.land_ones by lia.
  rewrite Z.mod_mul, Z.lor_0_l, Z.mod_small by lia.
  apply to_uint8_small. lia.
Qed.

Lemma enum_val_resolution_range (r : resolution_t) : 0 <= enum_val r < 16.
Proof. destruct r; cbn; lia. Qed.

Lemma enum_val_rate_range (t : meas_rate_t) : 0 <= enum_val t < 16.
Proof. destruct t; cbn; lia. Qed.

(** Without the conversion: the packed byte of two enumerators fits. *)
Lemma encode_res_rate_exact (r : resolution_t) (t : meas_rate_t) :
  encode_res_rate r t = Z.lor (Z.shiftl (enum_val r) 4) (enum_val t).
Proof. destruct r, t; reflexivity. Qed.

Lemma decode_res_rate_pack (hi lo : Z) :
  0 <= hi < 16 -> 0 <= lo < 16 ->
  decode_res_rate (Z.lor (Z.shiftl hi 4) lo) = (decode_resolution hi, decode_rate lo).
Proof.
  intros Hhi Hlo. unfold decode_res_rate.
  now rewrite resolution_field_pack, measurement_rate_field_pack.
Qed.

(** The round trips that hold: writer, then printer. *)
Lemma decode_mode_encode (m : measurement_mode_t) :
  decode_mode (encode_mode m) = Known m.
Proof. destruct m; reflexivity. Qed.

Lemma decode_gain_encode (g : gain_t) : decode_gain (encode_gain g) = Known g.
Proof. destruct g; reflexivity. Qed.

Lemma decode_rate_enum (t : meas_rate_t) : decode_rate (enum_val t) = Known t.
Proof. destruct t; reflexivity. Qed.

Lemma decode_resolution_enum (r : resolution_t) :
  r <> RES_13_BIT -> decode_resolution (enum_val r) = Known r.
Proof. destruct r; intros Hr; try reflexivity. now elim Hr. Qed.

Lemma decode_res_rate_encode (r : resolution_t) (t : meas_rate_t) :
  r <> RES_13_BIT -> decode_res_rate (encode_res_rate r t) = (Known r, Known t).
Proof.
  intros Hr. rewrite encode_res_rate_exact, decode_res_rate_pack
    by (apply enum_val_resolution_range || apply enum_val_rate_range).
  now rewrite decode_resolution_enum, decode_rate_enum.
Qed.

(** The [default:] branches. *)
Lemma decode_mode_default (b : Z) :
  b <> 0x02 -> b <> 0x0A -> switch mode_cases b = None.
Proof.
  intros H1 H2. cbn.
  destruct (Z.eqb_spec b 2); [lia|]. destruct (Z.eqb_spec b 10); [lia|]. reflexivity.
Qed.

Lemma decode_gain_default (b : Z) : ~ 0 <= b <= 4 -> switch gain_cases b = None.
Proof.
  intros H. cbn.
  repeat match goal with
         | |- context [b =? ?k] => destruct (Z.eqb_spec b k); [lia|]
         end.
  reflexivity.
Qed.

Lemma decode_resolution_default (n : Z) :
  ~ 0 <= n <= 4 -> switch resolution_cases n = None.
Proof.
  intros H. cbn.
  repeat match goal with
         | |- context [n =? ?k] => destruct (Z.eqb_spec n k); [lia|]
         end.
  reflexivity.
Qed.

Lemma decode_rate_default (n : Z) : ~ 0 <= n <= 6 -> switch rate_cases n = None.
Proof.
  intros H. cbn.
  repeat match goal with
         | |- context [n =? ?k] => destruct (Z.eqb_spec n k); [lia|]
         end.
  reflexivity.
Qed.

(** Bits put below a shifted value add up to a sum. *)
Lemma lor_shiftl_low (a b n : Z) :
  0 <= n -> 0 <= b < 2 ^ n -> Z.lor (Z.shiftl a n) b = a * 2 ^ n + b.
Proof.
  intros Hn Hb.
  rewrite Z.shiftl_mul_pow2 by lia.
  rewrite <- Z.lxor_lor, <- Z.add_nocarry_lxor; try reflexivity.
  all: apply Z.bits_inj'; intros k Hk; rewrite Z.land_spec, Z.bits_0.
  all: destruct (Z.lt_ge_cases k n);
      [ rewrite Z.mul_pow2_bits_low by lia; reflexivity |].
  all: destruct (Z.eq_dec b 0) as [->|];
      [ rewrite Z.bits_0; apply andb_false_r |].
  all: rewrite (Z.bits_above_log2 b k), andb_false_r; [reflexivity | lia |].
  all: apply Z.lt_le_trans with n; [apply Z.log2_lt_pow2; lia | lia].
Qed.

(** [raw_data] on bytes: no bit is lost and nothing wraps. *)
Lemma raw_data_lor (d0 d1 d2 : Z) :
  0 <= d0 < 256 -> 0 <= d1 < 256 -> 0 <= d2 < 256 ->
  Z.lor (Z.lor (Z.shiftl d2 16) (Z.shiftl d1 8)) d0 = d2 * 65536 + d1 * 256 + d0.
Proof.
  intros H0 H1 H2.
  replace (Z.shiftl d2 16) with (Z.shiftl (Z.shiftl d2 8) 8)
    by (rewrite Z.shiftl_shiftl by lia; reflexivity).
  rewrite <- Z.shiftl_lor.
  rewrite (lor_shiftl_low d2 d1 8) by (cbn; lia).
  rewrite (lor_shiftl_low _ d0 8) by (cbn; lia).
  change (2 ^ 8) with 256. lia.
Qed.

Lemma raw_data_bytes (d0 d1 d2 : Z) :
  0 <= d0 < 256 -> 0 <= d1 < 256 -> 0 <= d2 < 256 ->
  raw_data d0 d1 d2 = d2 * 65536 + d1 * 256 + d0.
Proof.
  intros H0 H1 H2. unfold raw_data. rewrite raw_data_lor by assumption.
  apply to_uint32_small. lia.
Qed.

Lemma raw_data_range (d0 d1 d2 : Z) :
  0 <= d0 < 256 -> 0 <= d1 < 256 -> 0 <= d2 < 256 ->
  0 <= raw_data d0 d1 d2 < 2 ^ 24.
Proof. intros H0 H1 H2. rewrite raw_data_bytes by assumption. lia. Qed.

End Codec.

(** ** Running a computation *)

Section Runs.

Context {driver : I2CDriver}.

Local Open Scope string_scope.
Local Open Scope Z_scope.

Lemma result_bind {A B} (m : IO A) (k : A -> IO B) (w : world) :
  result (bind m k w) = result (k (result (m w)) (final (m w))).
Proof.
  unfold bind, result, final. destruct (m w) as [[a w1] t1]. cbn.
  now destruct (k a w1) as [[b w2] t2].
Qed.

Lemma final_bind {A B} (m : IO A) (k : A -> IO B) (w : world) :
  final (bind m k w) = final (k (result (m w)) (final (m w))).
Proof.
  unfold bind, result, final. destruct (m w) as [[a w1] t1]. cbn.
  now destruct (k a w1) as [[b w2] t2].
Qed.

Lemma events_bind {A B} (m : IO A) (k : A -> IO B) (w : world) :
  events (bind m k w)
  = (events (m w) ++ events (k (result (m w)) (final (m w))))%list.
Proof.
  unfold bind, result, final, events. destruct (m w) as [[a w1] t1]. cbn.
  now destruct (k a w1) as [[b w2] t2].
Qed.

Lemma run_eta {A} (r : A * world * list (Z * event)) :
  r = (result r, final r, events r).
Proof. now destruct r as [[a w] t]. Qed.

Lemma with_bus_with_bus (b b' : bus) (w : world) :
  with_bus b (with_bus b' w) = with_bus b w.
Proof. reflexivity. Qed.

Lemma with_bus_same (w : world) : with_bus (w_bus w) w = w.
Proof. now destruct w. Qed.

(** The bus after a register access, and the byte a one-byte read of a
    device register leaves in its buffer. *)
Definition bus_after_read (sd : i2c_handle) (reg : Z) (b : bus) : bus :=
  snd (i2c_read_register sd DEVICE reg 1 b).

Definition bus_after_write (sd : i2c_handle) (reg : Z) (bytes : list Z) (b : bus)
  : bus :=
  snd (i2c_write_register sd DEVICE reg bytes b).

Definition bus_read (sd : i2c_handle) (reg : Z) (b : bus) : Z :=
  buffer_byte 0 (fst (i2c_read_register sd DEVICE reg 1 b)).

Lemma bus_read_range (sd : i2c_handle) (reg : Z) (b : bus) :
  0 <= bus_read sd reg b < 256.
Proof. apply to_uint8_range. Qed.

(** One-byte reads and writes of device registers, as the accessors of
    the source make them. *)
Definition read_byte (sd : i2c_handle) (reg : Z) : IO Z :=
  r <- read_register sd DEVICE reg 1 ;; ret (buffer_byte 0 r).

Lemma read_byte_run (sd : i2c_handle) (reg : Z) (w : world) :
  read_byte sd reg w =
  (bus_read sd reg (w_bus w), with_bus (bus_after_read sd reg (w_bus w)) w,
   [(clock w, EvRead DEVICE reg 1)]).
Proof.
  unfold read_byte, bind, read_register, ret, bus_read, bus_after_read.
  now destruct (i2c_read_register sd DEVICE reg 1 (w_bus w)) as [r b].
Qed.

Lemma write_register_final (sd : i2c_handle) (reg : Z) (bytes : list Z) (w : world) :
  final (write_register sd DEVICE reg bytes w)
  = with_bus (bus_after_write sd reg bytes (w_bus w)) w.
Proof.
  unfold write_register, bus_after_write, final.
  now destruct (i2c_write_register sd DEVICE reg bytes (w_bus w)).
Qed.

Lemma write_register_events (sd : i2c_handle) (dev reg : Z) (bytes : list Z) (w : world) :
  events (write_register sd dev reg bytes w) = [(clock w, EvWrite dev reg bytes)].
Proof.
  unfold write_register, events.
  now destruct (i2c_write_register sd dev reg bytes (w_bus w)).
Qed.

Lemma msleep_events (msec : Z) (w : world) : events (msleep msec w) = [].
Proof.
  unfold msleep. destruct (msec <? 0); [reflexivity|].
  now destruct (msleep_loop _ _ w) as [[res w']|].
Qed.

(** *** The retry loop of [msleep] *)

Lemma timespec_of_ns_valid (ns : Z) :
  0 <= ns -> timespec_valid (timespec_of_ns ns) = true.
Proof.
  intros Hns. unfold timespec_valid, timespec_of_ns. cbn [tv_sec tv_nsec].
  pose proof (Z.mod_pos_bound ns 1000000000 ltac:(lia)).
  pose proof (Z.div_pos ns 1000000000 Hns ltac:(lia)).
  rewrite !andb_true_iff. repeat split; lia.
Qed.

Lemma timespec_ns_of_ns (ns : Z) : timespec_ns (timespec_of_ns ns) = ns.
Proof.
  unfold timespec_ns, timespec_of_ns. cbn [tv_sec tv_nsec].
  pose proof (Z.div_mod ns 1000000000 ltac:(lia)). lia.
Qed.

Lemma timespec_valid_ns (ts : timespec) :
  timespec_valid ts = true -> 0 <= timespec_ns ts.
Proof.
  unfold timespec_valid, timespec_ns. rewrite !andb_true_iff. lia.
Qed.

(** The loop ends once the signals that interrupt it are used up: with
    more rounds than pending signals it returns 0, the bus untouched and
    the clock advanced by exactly the time requested. *)
Lemma msleep_loop_enough (fuel : nat) :
  forall (ts : timespec) (w : world),
    timespec_valid ts = true ->
    (List.length (signals w) < fuel)%nat ->
    exists w',
      msleep_loop fuel ts w = Some (0, w')
      /\ clock w' = clock w + timespec_ns ts
      /\ w_bus w' = w_bus w.
Proof.
  induction fuel as [|fuel IH]; intros ts w Hts Hfuel; [lia|].
  pose proof (timespec_valid_ns ts Hts) as Hd.
  cbn [msleep_loop]. unfold nanosleep. rewrite Hts. cbn [negb].
  destruct (signals w) as [|g rest] eqn:Hsig.
  - cbn. eexists. split; [reflexivity|]. cbn. split; reflexivity.
  - cbn zeta. destruct (Z.ltb_spec (Z.max 0 g) (timespec_ns ts)) as [Hlt|Hge].
    + cbn [negb Z.eqb andb errno]. rewrite Z.eqb_refl.
      destruct (IH (timespec_of_ns (timespec_ns ts - Z.max 0 g))
                  {| w_bus := w_bus w; errno := EINTR; signals := rest;
                     clock := clock w + Z.max 0 g |}) as (w' & Hrun & Hclock & Hbus).
      * apply timespec_of_ns_valid. lia.
      * cbn in *. lia.
      * exists w'. rewrite Hrun, Hclock, Hbus, timespec_ns_of_ns. cbn.
        repeat split; lia.
    + cbn. eexists. split; [reflexivity|]. cbn. split; reflexivity.
Qed.

(** More fuel than needed changes nothing. *)
Lemma msleep_loop_fuel (fuel fuel' : nat) (ts : timespec) (w : world) :
  timespec_valid ts = true ->
  (List.length (signals w) < fuel)%nat -> (List.length (signals w) < fuel')%nat ->
  msleep_loop fuel ts w = msleep_loop fuel' ts w.
Proof.
  revert fuel' ts w. induction fuel as [|fuel IH]; intros fuel' ts w Hts H1 H2; [lia|].
  destruct fuel' as [|fuel']; [lia|].
  cbn [msleep_loop]. unfold nanosleep. rewrite Hts. cbn [negb].
  pose proof (timespec_valid_ns ts Hts) as Hd.
  destruct (signals w) as [|g rest] eqn:Hsig; [reflexivity|].
  cbn zeta. destruct (Z.ltb_spec (Z.max 0 g) (timespec_ns ts)) as [Hlt|Hge];
    [|reflexivity].
  cbn [negb Z.eqb andb errno]. rewrite Z.eqb_refl.
  apply IH; cbn in *; try lia. apply timespec_of_ns_valid. lia.
Qed.

Lemma msleep_timespec (msec : Z) :
  0 <= msec ->
  let ts := {| tv_sec := Z.quot msec 1000; tv_nsec := Z.rem msec 1000 * 1000000 |} in
  timespec_valid ts = true /\ timespec_ns ts = msec * 1000000.
Proof.
  intros Hmsec ts. subst ts. unfold timespec_valid, timespec_ns. cbn [tv_sec tv_nsec].
  rewrite Z.quot_div_nonneg, Z.rem_mod_nonneg by lia.
  pose proof (Z.mod_pos_bound msec 1000 ltac:(lia)).
  pose proof (Z.div_pos msec 1000 Hmsec ltac:(lia)).
  pose proof (Z.div_mod msec 1000 ltac:(lia)).
  rewrite !andb_true_iff. repeat split; lia.
Qed.

Lemma msleep_run (msec : Z) (w : world) :
  0 <= msec ->
  result (msleep msec w) = true
  /\ clock (final (msleep msec w)) = clock w + msec * 1000000
  /\ w_bus (final (msleep msec w)) = w_bus w.
Proof.
  intros Hmsec. unfold msleep.
  destruct (Z.ltb_spec msec 0) as [|_]; [lia|].
  destruct (msleep_timespec msec Hmsec) as [Hvalid Hns].
  destruct (msleep_loop_enough (S (List.length (signals w))) _ w Hvalid)
    as (w' & Hrun & Hclock & Hbus); [lia|].
  cbv zeta in Hns. rewrite Hrun. cbn. rewrite Hclock, Hbus, Hns. auto.
Qed.

(** *** The accessors *)

Lemma result_run {A} (a : A) (w : world) (t : list (Z * event)) :
  result (a, w, t) = a.
Proof. reflexivity. Qed.

Lemma final_run {A} (a : A) (w : world) (t : list (Z * event)) :
  final (a, w, t) = w.
Proof. reflexivity. Qed.

Lemma events_run {A} (a : A) (w : world) (t : list (Z * event)) :
  events (a, w, t) = t.
Proof. reflexivity. Qed.

Lemma clock_with_bus (b : bus) (w : world) : clock (with_bus b w) = clock w.
Proof. reflexivity. Qed.

Lemma w_bus_with_bus (b : bus) (w : world) : w_bus (with_bus b w) = b.
Proof. reflexivity. Qed.

Lemma ret_run {A} (a : A) (w : world) : ret a w = (a, w, []).
Proof. reflexivity. Qed.

Lemma printf_run (text : string) (w : world) :
  printf text w = (tt, w, [(clock w, EvStdout text)]).
Proof. reflexivity. Qed.

Lemma dbgPrint_run (fmt : string) (args : list vararg) (w : world) :
  dbgPrint fmt args w = (tt, w, [(clock w, EvDbgPrint fmt args)]).
Proof. reflexivity. Qed.

Lemma disconnect_run (sd : i2c_handle) (w : world) :
  disconnect sd w
  = (tt, with_bus (i2c_disconnect sd (w_bus w)) w, [(clock w, EvDisconnect)]).
Proof. reflexivity. Qed.

Lemma get_status_run (sd : i2c_handle) (w : world) :
  get_status sd w = read_byte sd MAIN_STATUS_REG w.
Proof. reflexivity. Qed.

Lemma get_int_conf_reg_run (sd : i2c_handle) (w : world) :
  get_int_conf_reg sd w = read_byte sd INT_CONF_REG w.
Proof. reflexivity. Qed.

Lemma get_part_id_run (sd : i2c_handle) (w : world) :
  get_part_id sd w = read_byte sd PART_ID_REG w.
Proof. reflexivity. Qed.

Lemma get_mode_run (sd : i2c_handle) (w : world) :
  get_mode sd w = read_byte sd MAIN_CTRL_REG w.
Proof. reflexivity. Qed.

Lemma get_gain_run (sd : i2c_handle) (w : world) :
  get_gain sd w = read_byte sd GAIN_REG w.
Proof. reflexivity. Qed.

Lemma get_res_meas_rate_run (sd : i2c_handle) (w : world) :
  get_res_meas_rate sd w = read_byte sd RES_MEAS_RATE_REG w.
Proof. reflexivity. Qed.

Create Rewrite HintDb io.

#[local] Hint Rewrite @result_bind @final_bind @events_bind
  @result_run @final_run @events_run clock_with_bus w_bus_with_bus
  with_bus_with_bus @ret_run printf_run dbgPrint_run disconnect_run
  get_status_run get_int_conf_reg_run get_part_id_run get_mode_run
  get_gain_run get_res_meas_rate_run read_byte_run
  write_register_final write_register_events msleep_events : io.

Ltac io_run := repeat progress (cbv beta; autorewrite with io).

(** The bytes [read_raw_data] gets: each read goes to the bus the read
    before it left. *)
Definition data0_of (sd : i2c_handle) (b : bus) : Z :=
  bus_read sd (UV_DATA_REG + 0) b.
Definition data1_of (sd : i2c_handle) (b : bus) : Z :=
  bus_read sd (UV_DATA_REG + 1) (bus_after_read sd (UV_DATA_REG + 0) b).
Definition data2_of (sd : i2c_handle) (b : bus) : Z :=
  bus_read sd (UV_DATA_REG + 2)
    (bus_after_read sd (UV_DATA_REG + 1) (bus_after_read sd (UV_DATA_REG + 0) b)).

Lemma read_raw_data_run (sd : i2c_handle) (w : world) :
  read_raw_data sd w =
  (raw_data (data0_of sd (w_bus w)) (data1_of sd (w_bus w)) (data2_of sd (w_bus w)),
   with_bus
     (bus_after_read sd (UV_DATA_REG + 2)
        (bus_after_read sd (UV_DATA_REG + 1)
           (bus_after_read sd (UV_DATA_REG + 0) (w_bus w)))) w,
   map (pair (clock w))
     [ EvRead DEVICE (UV_DATA_REG + 0) 1;
       EvRead DEVICE (UV_DATA_REG + 1) 1;
       EvRead DEVICE (UV_DATA_REG + 2) 1;
       EvDbgPrint ("%hhu %hhu %hhu" ++ nl)
         [ ArgZ (data0_of sd (w_bus w)); ArgZ (data1_of sd (w_bus w));
           ArgZ (data2_of sd (w_bus w)) ] ]).
Proof.
  rewrite (run_eta (read_raw_data sd w)). unfold read_raw_data.
  unfold data0_of, data1_of, data2_of, bus_read, bus_after_read,
    read_register, bind, ret, dbgPrint, emit, result, final, events.
  destruct (i2c_read_register sd DEVICE (UV_DATA_REG + 0) 1 (w_bus w)) as [r0 b0].
  cbn [fst snd w_bus with_bus].
  destruct (i2c_read_register sd DEVICE (UV_DATA_REG + 1) 1 b0) as [r1 b1].
  cbn [fst snd w_bus with_bus].
  destruct (i2c_read_register sd DEVICE (UV_DATA_REG + 2) 1 b1) as [r2 b2].
  reflexivity.
Qed.

(** *** The configure blocks of [main] *)

(** The bus on which a block reads back the register it has written. *)
Definition readback_bus (sd : i2c_handle) (reg v : Z) (b : bus) : bus :=
  bus_after_write sd reg [v] (bus_after_read sd reg b).

(** The bus a block leaves. *)
Definition block_bus (sd : i2c_handle) (reg v : Z) (b : bus) : bus :=
  bus_after_read sd reg (readback_bus sd reg v b).

(** The events of the blocks, given the value read first and the value
    read back. *)
Definition mode_step_events (mode0 mode1 : Z) : list event :=
  [ EvRead DEVICE MAIN_CTRL_REG 1;
    EvStdout ("mode raw: 0x" ++ fmt_hhx mode0 ++ nl);
    EvStdout (mode_text mode0);
    EvStdout ("Setting mode to UVS_MODE." ++ nl);
    EvWrite DEVICE MAIN_CTRL_REG [encode_mode UVS_MODE];
    EvRead DEVICE MAIN_CTRL_REG 1;
    EvStdout (mode_text mode1) ].

Definition gain_step_events (gain0 gain1 : Z) : list event :=
  [ EvRead DEVICE GAIN_REG 1;
    EvStdout ("gain raw: " ++ fmt_u gain0 ++ nl);
    EvStdout (gain_text gain0);
    EvStdout ("Setting gain to 18." ++ nl);
    EvWrite DEVICE GAIN_REG [encode_gain GAIN_18];
    EvRead DEVICE GAIN_REG 1;
    EvStdout (gain_text gain1) ].

Definition res_meas_rate_step_events (rr0 rr1 : Z) : list event :=
  [ EvRead DEVICE RES_MEAS_RATE_REG 1;
    EvStdout (resolution_text (resolution_field rr0));
    EvStdout (measurement_rate_text (measurement_rate_field rr0));
    EvStdout ("Setting resolution to 18 bit and rate to 100ms." ++ nl);
    EvWrite DEVICE RES_MEAS_RATE_REG [encode_res_rate RES_18_BIT RATE_100];
    EvRead DEVICE RES_MEAS_RATE_REG 1;
    EvStdout (resolution_text (resolution_field rr1));
    EvStdout (measurement_rate_text (measurement_rate_field rr1)) ].

Lemma main_mode_run (sd : i2c_handle) (w : world) :
  main_mode sd w =
  (tt, with_bus (block_bus sd MAIN_CTRL_REG (encode_mode UVS_MODE) (w_bus w)) w,
   map (pair (clock w))
     (mode_step_events
        (bus_read sd MAIN_CTRL_REG (w_bus w))
        (bus_read sd MAIN_CTRL_REG
           (readback_bus sd MAIN_CTRL_REG (encode_mode UVS_MODE) (w_bus w))))).
Proof.
  rewrite (run_eta (main_mode sd w)).
  unfold main_mode, print_mode, set_mode. io_run.
  reflexivity.
Qed.

Lemma main_gain_run (sd : i2c_handle) (w : world) :
  main_gain sd w =
  (tt, with_bus (block_bus sd GAIN_REG (encode_gain GAIN_18) (w_bus w)) w,
   map (pair (clock w))
     (gain_step_events
        (bus_read sd GAIN_REG (w_bus w))
        (bus_read sd GAIN_REG
           (readback_bus sd GAIN_REG (encode_gain GAIN_18) (w_bus w))))).
Proof.
  rewrite (run_eta (main_gain sd w)).
  unfold main_gain, print_gain, set_gain. io_run.
  reflexivity.
Qed.

Lemma main_res_meas_rate_run (sd : i2c_handle) (w : world) :
  main_res_meas_rate sd w =
  (tt,
   with_bus
     (block_bus sd RES_MEAS_RATE_REG (encode_res_rate RES_18_BIT RATE_100) (w_bus w)) w,
   map (pair (clock w))
     (res_meas_rate_step_events
        (bus_read sd RES_MEAS_RATE_REG (w_bus w))
        (bus_read sd RES_MEAS_RATE_REG
           (readback_bus sd RES_MEAS_RATE_REG
              (encode_res_rate RES_18_BIT RATE_100) (w_bus w))))).
Proof.
  rewrite (run_eta (main_res_meas_rate sd w)).
  unfold main_res_meas_rate, print_res_meas_rate, set_res_meas_rate. io_run.
  reflexivity.
Qed.

(** *** The poll loop *)

(** What one round of the loop reads. *)
Record poll_sample := {
  ps_status : Z;
  ps_int_conf : Z;
  ps_data0 : Z;
  ps_data1 : Z;
  ps_data2 : Z;
}.

(** The events of one round, in order; the sleep that ends the round
    shows in the time stamps of the next one. *)
Definition poll_events (s : poll_sample) : list event :=
  [ EvRead DEVICE MAIN_STATUS_REG 1;
    EvStdout ("Status: " ++ fmt_hhx (ps_status s) ++ nl);
    EvRead DEVICE INT_CONF_REG 1;
    EvStdout ("Config Register: " ++ fmt_hhx (ps_int_conf s) ++ nl);
    EvWrite DEVICE INT_CONF_REG [0x30];
    EvRead DEVICE (UV_DATA_REG + 0) 1;
    EvRead DEVICE (UV_DATA_REG + 1) 1;
    EvRead DEVICE (UV_DATA_REG + 2) 1;
    EvDbgPrint ("%hhu %hhu %hhu" ++ nl)
      [ArgZ (ps_data0 s); ArgZ (ps_data1 s); ArgZ (ps_data2 s)];
    EvStdout
      ("raw data: " ++ fmt_u (raw_data (ps_data0 s) (ps_data1 s) (ps_data2 s)) ++ nl) ].

(** Rounds that start 100 ms of sleep apart. *)
Fixpoint poll_trace (t : Z) (samples : list poll_sample) : list (Z * event) :=
  match samples with
  | [] => []
  | s :: samples' =>
      (map (pair t) (poll_events s) ++ poll_trace (t + 100000000) samples')%list
  end.

(** The bus on which a round reads the measurement, the bus it leaves,
    and what it reads. *)
Definition poll_data_bus (sd : i2c_handle) (b : bus) : bus :=
  bus_after_write sd INT_CONF_REG [0x30]
    (bus_after_read sd INT_CONF_REG (bus_after_read sd MAIN_STATUS_REG b)).

Definition poll_bus (sd : i2c_handle) (b : bus) : bus :=
  bus_after_read sd (UV_DATA_REG + 2)
    (bus_after_read sd (UV_DATA_REG + 1)
       (bus_after_read sd (UV_DATA_REG + 0) (poll_data_bus sd b))).

Definition poll_sample_of (sd : i2c_handle) (b : bus) : poll_sample :=
  {| ps_status := bus_read sd MAIN_STATUS_REG b;
     ps_int_conf := bus_read sd INT_CONF_REG (bus_after_read sd MAIN_STATUS_REG b);
     ps_data0 := data0_of sd (poll_data_bus sd b);
     ps_data1 := data1_of sd (poll_data_bus sd b);
     ps_data2 := data2_of sd (poll_data_bus sd b) |}.

Fixpoint poll_samples (sd : i2c_handle) (n : nat) (b : bus) : list poll_sample :=
  match n with
  | O => []
  | S n' => poll_sample_of sd b :: poll_samples sd n' (poll_bus sd b)
  end.


Lemma main_poll_run (sd : i2c_handle) (w : world) :
  events (main_poll sd w)
  = map (pair (clock w)) (poll_events (poll_sample_of sd (w_bus w)))
  /\ clock (final (main_poll sd w)) = clock w + 100000000
  /\ w_bus (final (main_poll sd w)) = poll_bus sd (w_bus w).
Proof.
  unfold main_poll, set_int_conf_reg. io_run. rewrite !read_raw_data_run. io_run.
  match goal with
  | |- context [msleep 100 ?w0] =>
      destruct (msleep_run 100 w0 ltac:(lia)) as (_ & -> & ->)
  end.
  cbn [map app]. repeat split; reflexivity.
Qed.

Lemma poll_loop_run (sd : i2c_handle) (n : nat) :
  forall (i : Z) (w : world),
    let r := for_from n i (fun _ => main_poll sd) w in
    events r = poll_trace (clock w) (poll_samples sd n (w_bus w))
    /\ clock (final r) = clock w + Z.of_nat n * 100000000
    /\ w_bus (final r) = Nat.iter n (poll_bus sd) (w_bus w).
Proof.
  induction n as [|n IH]; intros i w r; subst r.
  - cbn. repeat split; lia.
  - cbn [for_from]. io_run.
    destruct (main_poll_run sd w) as (Hev & Hclock & Hbus).
    destruct (IH (i + 1) (final (main_poll sd w))) as (IHev & IHclock & IHbus).
    rewrite IHev, IHclock, IHbus, Hev, Hclock, Hbus.
    cbn [poll_samples poll_trace]. repeat split; try lia.
    now rewrite <- Nat.iter_succ_r.
Qed.

(** *** [main] *)

(** The bus after the three configure blocks, and the events of
    [main_session] up to the loop. *)
Definition mode_bus (sd : i2c_handle) (b : bus) : bus :=
  block_bus sd MAIN_CTRL_REG (encode_mode UVS_MODE) b.

Definition gain_bus (sd : i2c_handle) (b : bus) : bus :=
  block_bus sd GAIN_REG (encode_gain GAIN_18) (mode_bus sd b).

Definition configured_bus (sd : i2c_handle) (b : bus) : bus :=
  block_bus sd RES_MEAS_RATE_REG (encode_res_rate RES_18_BIT RATE_100) (gain_bus sd b).

Definition configure_events (sd : i2c_handle) (part_id : Z) (b : bus) : list event :=
  ([ EvStdout ("part id: 0x" ++ fmt_hhx part_id ++ nl); EvStdout separator ]
   ++ mode_step_events
        (bus_read sd MAIN_CTRL_REG b)
        (bus_read sd MAIN_CTRL_REG
           (readback_bus sd MAIN_CTRL_REG (encode_mode UVS_MODE) b))
   ++ [ EvStdout separator ]
   ++ gain_step_events
        (bus_read sd GAIN_REG (mode_bus sd b))
        (bus_read sd GAIN_REG
           (readback_bus sd GAIN_REG (encode_gain GAIN_18) (mode_bus sd b)))
   ++ [ EvStdout separator ]
   ++ res_meas_rate_step_events
        (bus_read sd RES_MEAS_RATE_REG (gain_bus sd b))
        (bus_read sd RES_MEAS_RATE_REG
           (readback_bus sd RES_MEAS_RATE_REG
              (encode_res_rate RES_18_BIT RATE_100) (gain_bus sd b)))
   ++ [ EvStdout separator ])%list.

Lemma main_session_run (sd : i2c_handle) (part_id : Z) (w : world) :
  result (main_session sd part_id w) = EXIT_SUCCESS
  /\ events (main_session sd part_id w)
     = (map (pair (clock w)) (configure_events sd part_id (w_bus w))
        ++ poll_trace (clock w) (poll_samples sd 10 (configured_bus sd (w_bus w)))
        ++ [(clock w + 10 * 100000000, EvDisconnect)])%list.
Proof.
  unfold main_session, for_lt. change (Z.to_nat (10 - 0)) with 10%nat.
  io_run. rewrite main_mode_run. io_run. rewrite main_gain_run. io_run.
  rewrite main_res_meas_rate_run. io_run.
  match goal with
  | |- context [for_from 10 0 _ ?w0] =>
      destruct (poll_loop_run sd 10 0 w0) as (-> & -> & _)
  end.
  io_run. split; [reflexivity|].
  unfold configure_events, mode_bus, gain_bus, configured_bus.
  rewrite !map_app. cbn [map app]. rewrite <- !app_assoc. reflexivity.
Qed.

Lemma main_run_usage (argv : list string) (w : world) :
  (List.length argv < 2)%nat ->
  main argv w =
  (EXIT_FAILURE, w,
   [(clock w,
     EvStdout ("Usage: " ++ nth 0 argv EmptyString
               ++ " <USB-DEVICE-TO-FT230-CHIP>" ++ nl))]).
Proof.
  intros Hargc. unfold main.
  destruct (Z.ltb_spec (Z.of_nat (List.length argv)) 2) as [_|]; [|lia].
  reflexivity.
Qed.

Lemma main_run_connect_failed (argv : list string) (w : world) (b : bus) :
  (2 <= List.length argv)%nat ->
  i2c_connect (nth 1 argv EmptyString) (w_bus w) = (None, b) ->
  main argv w =
  (EXIT_FAILURE, with_bus b w,
   [ (clock w, EvConnect (nth 1 argv EmptyString) false);
     (clock w,
      EvLogError ("Could not connect to %s" ++ nl) [ArgS (nth 1 argv EmptyString)]) ]).
Proof.
  intros Hargc Hconnect. unfold main.
  destruct (Z.ltb_spec (Z.of_nat (List.length argv)) 2) as [|_]; [lia|].
  unfold bind at 1. unfold connect. rewrite Hconnect. reflexivity.
Qed.

Lemma main_run_connected (argv : list string) (w : world) (sd : i2c_handle) (b : bus) :
  (2 <= List.length argv)%nat ->
  i2c_connect (nth 1 argv EmptyString) (w_bus w) = (Some sd, b) ->
  let part_id := bus_read sd PART_ID_REG b in
  let k := if negb (part_id =? 0xb2)
           then logExit "Wrong Part ID: %hhu" [ArgZ part_id]
           else main_session sd part_id in
  let w1 := with_bus (bus_after_read sd PART_ID_REG b) w in
  result (main argv w) = result (k w1)
  /\ events (main argv w)
     = ((clock w, EvConnect (nth 1 argv EmptyString) true)
        :: (clock w, EvRead DEVICE PART_ID_REG 1) :: events (k w1))%list.
Proof.
  intros Hargc Hconnect part_id k w1. subst part_id k w1. unfold main.
  destruct (Z.ltb_spec (Z.of_nat (List.length argv)) 2) as [|_]; [lia|].
  rewrite result_bind, events_bind.
  assert (Hc : connect (nth 1 argv EmptyString) w
               = (Some sd, with_bus b w,
                  [(clock w, EvConnect (nth 1 argv EmptyString) true)])).
  { unfold connect. now rewrite Hconnect. }
  rewrite Hc. io_run. split; reflexivity.
Qed.

(** ** The claims *)

(** C1.  The round trip "write a setting, print what was written"
    holds for the mode, the gain and the measurement rate, and for five
    of the six resolutions.  It breaks at [RES_13_BIT]: the [switch] of
    [print_res_meas_rate] has no label for it, so the byte that
    [set_res_meas_rate] makes for a 13 bit resolution is printed as
    "Unknown resolution: 5", whatever the rate. *)
Theorem print_res_meas_rate_misses_RES_13_BIT :
  decode_resolution (enum_val RES_13_BIT) = Unknown 5
  /\ (forall t : meas_rate_t,
        decode_res_rate (encode_res_rate RES_13_BIT t) = (Unknown 5, Known t))
  /\ (forall (t : meas_rate_t) (w : world),
        events (print_res_meas_rate (encode_res_rate RES_13_BIT t) w)
        = [ (clock w, EvStdout ("Unknown resolution: 5" ++ nl));
            (clock w, EvStdout (measurement_rate_text (enum_val t))) ])
  /\ (forall m : measurement_mode_t, decode_mode (encode_mode m) = Known m)
  /\ (forall g : gain_t, decode_gain (encode_gain g) = Known g)
  /\ (forall t : meas_rate_t, decode_rate (enum_val t) = Known t)
  /\ (forall t : meas_rate_t,
        Forall (fun r => decode_res_rate (encode_res_rate r t) = (Known r, Known t))
          [RES_20_BIT; RES_19_BIT; RES_18_BIT; RES_17_BIT; RES_16_BIT]).
Proof.
  split; [reflexivity|].
  split; [intros t; destruct t; reflexivity|].
  split; [intros t w; destruct t; reflexivity|].
  split; [exact decode_mode_encode|].
  split; [exact decode_gain_encode|].
  split; [exact decode_rate_enum|].
  intros t. repeat constructor; now apply decode_res_rate_encode.
Qed.

(** C3.  [read_raw_data] makes three one-byte reads, of the data
    register at offsets 0, 1 and 2, each on the bus the read before it
    left, and puts the bytes the transport stored together as
    [data2 << 16 | data1 << 8 | data0], the byte of offset 0 lowest.
    When the reads store the bytes 0x01, 0x02 and 0x03 the result is
    0x030201, and whatever the three bytes are, the value is below
    [2^24]. *)
Theorem read_raw_data_assembles_24_bits (sd : i2c_handle) (w : world) :
  let r0 := i2c_read_register sd DEVICE (UV_DATA_REG + 0) 1 (w_bus w) in
  let r1 := i2c_read_register sd DEVICE (UV_DATA_REG + 1) 1 (snd r0) in
  let r2 := i2c_read_register sd DEVICE (UV_DATA_REG + 2) 1 (snd r1) in
  let data0 := to_uint8 (hd 0 (snd (fst r0))) in
  let data1 := to_uint8 (hd 0 (snd (fst r1))) in
  let data2 := to_uint8 (hd 0 (snd (fst r2))) in
  events (read_raw_data sd w)
  = map (pair (clock w))
      [ EvRead DEVICE (UV_DATA_REG + 0) 1;
        EvRead DEVICE (UV_DATA_REG + 1) 1;
        EvRead DEVICE (UV_DATA_REG + 2) 1;
        EvDbgPrint ("%hhu %hhu %hhu" ++ nl) [ArgZ data0; ArgZ data1; ArgZ data2] ]
  /\ final (read_raw_data sd w) = with_bus (snd r2) w
  /\ result (read_raw_data sd w)
     = Z.lor (Z.lor (Z.shiftl data2 16) (Z.shiftl data1 8)) data0
  /\ result (read_raw_data sd w) = data2 * 65536 + data1 * 256 + data0
  /\ 0 <= result (read_raw_data sd w) < 2 ^ 24
  /\ raw_data 0x01 0x02 0x03 = 0x030201
  /\ (forall b0 b1 b2 : Z,
        0 <= raw_data (to_uint8 b0) (to_uint8 b1) (to_uint8 b2) < 2 ^ 24)
  /\ (forall b0 b1 b2 : Z,
        snd (fst r0) = [b0] -> snd (fst r1) = [b1] -> snd (fst r2) = [b2] ->
        0 <= b0 < 256 -> 0 <= b1 < 256 -> 0 <= b2 < 256 ->
        result (read_raw_data sd w)
        = Z.lor (Z.lor (Z.shiftl b2 16) (Z.shiftl b1 8)) b0
        /\ result (read_raw_data sd w) = b2 * 65536 + b1 * 256 + b0)
  /\ (snd (fst r0) = [0x01] -> snd (fst r1) = [0x02] -> snd (fst r2) = [0x03] ->
      result (read_raw_data sd w) = 0x030201).
Proof.
  intros r0 r1 r2 data0 data1 data2.
  assert (E0 : data0_of sd (w_bus w) = data0) by reflexivity.
  assert (E1 : data1_of sd (w_bus w) = data1) by reflexivity.
  assert (E2 : data2_of sd (w_bus w) = data2) by reflexivity.
  assert (H0 : 0 <= data0 < 256) by apply to_uint8_range.
  assert (H1 : 0 <= data1 < 256) by apply to_uint8_range.
  assert (H2 : 0 <= data2 < 256) by apply to_uint8_range.
  rewrite read_raw_data_run. io_run. rewrite E0, E1, E2.
  rewrite raw_data_lor, raw_data_bytes by assumption.
  split; [reflexivity|]. split; [reflexivity|]. split; [reflexivity|].
  split; [reflexivity|]. split; [lia|]. split; [reflexivity|].
  split; [intros; apply raw_data_range; apply to_uint8_range|].
  split.
  - intros b0 b1 b2 S0 S1 S2 B0 B1 B2.
    assert (D0 : data0 = b0)
      by (subst data0; rewrite S0; cbn [hd]; now apply to_uint8_small).
    assert (D1 : data1 = b1)
      by (subst data1; rewrite S1; cbn [hd]; now apply to_uint8_small).
    assert (D2 : data2 = b2)
      by (subst data2; rewrite S2; cbn [hd]; now apply to_uint8_small).
    rewrite D0, D1, D2, raw_data_lor by assumption. split; reflexivity.
  - intros S0 S1 S2.
    assert (D0 : data0 = 1) by (subst data0; rewrite S0; reflexivity).
    assert (D1 : data1 = 2) by (subst data1; rewrite S1; reflexivity).
    assert (D2 : data2 = 3) by (subst data2; rewrite S2; reflexivity).
    rewrite D0, D1, D2. reflexivity.
Qed.

(** What [print_res_meas_rate] prints for a byte made of two nibbles. *)
Lemma print_res_meas_rate_pack (hi lo : Z) (w : world) :
  0 <= hi < 16 -> 0 <= lo < 16 ->
  events (print_res_meas_rate (Z.lor (Z.shiftl hi 4) lo) w)
  = [ (clock w, EvStdout (resolution_text hi));
      (clock w, EvStdout (measurement_rate_text lo)) ].
Proof.
  intros Hhi Hlo. unfold print_res_meas_rate. io_run.
  now rewrite resolution_field_pack, measurement_rate_field_pack.
Qed.

(** C4.  A value outside the enumerators of its field goes to the
    [default:] branch, which prints the raw value: a mode byte other
    than 0x02 and 0x0A, a gain byte above 4, a resolution nibble above 5
    and a rate nibble above 6.  The two nibbles of the resolution/rate
    byte are decoded one by one: beside an unknown resolution nibble
    each of the seven rates is recognised and printed, and beside an
    unknown rate nibble the resolutions 20, 19, 18, 17 and 16 bit are.
    The resolution nibble 5 is not: [RES_13_BIT] has no label in the
    [switch], so beside an unknown rate it is printed as
    "Unknown resolution: 5". *)
Theorem unknown_values_are_reported (m g hi lo : Z) :
  0 <= m < 256 -> m <> 0x02 -> m <> 0x0A ->
  0 <= g < 256 -> 4 < g ->
  0 <= hi < 16 -> 5 < hi ->
  0 <= lo < 16 -> 6 < lo ->
  (decode_mode m = Unknown m
   /\ forall w, events (print_mode m w)
                = [(clock w, EvStdout ("Unknown mode: " ++ dec m ++ nl))])
  /\ (decode_gain g = Unknown g
      /\ forall w, events (print_gain g w)
                   = [(clock w, EvStdout ("Unknown gain: " ++ dec g ++ nl))])
  /\ (decode_res_rate (Z.lor (Z.shiftl hi 4) lo) = (Unknown hi, Unknown lo)
      /\ forall w, events (print_res_meas_rate (Z.lor (Z.shiftl hi 4) lo) w)
                   = [ (clock w, EvStdout ("Unknown resolution: " ++ dec hi ++ nl));
                       (clock w, EvStdout ("Unknown measurement rate: " ++ dec lo ++ nl)) ])
  /\ (forall t : meas_rate_t,
        decode_res_rate (Z.lor (Z.shiftl hi 4) (enum_val t)) = (Unknown hi, Known t))
  /\ (forall w,
        map (fun t => events (print_res_meas_rate (Z.lor (Z.shiftl hi 4) (enum_val t)) w))
          [RATE_25; RATE_50; RATE_100; RATE_200; RATE_500; RATE_1000; RATE_2000]
        = map (fun line =>
                 [ (clock w, EvStdout ("Unknown resolution: " ++ dec hi ++ nl));
                   (clock w, EvStdout (line ++ nl)) ])
            [ "measurement rate: 25ms"; "measurement rate: 50ms";
              "measurement rate: 100ms"; "measurement rate: 200ms";
              "measurement rate: 500ms"; "measurement rate: 1000ms";
              "measurement rate: 2000ms" ])
  /\ Forall (fun r => decode_res_rate (Z.lor (Z.shiftl (enum_val r) 4) lo)
                      = (Known r, Unknown lo))
       [RES_20_BIT; RES_19_BIT; RES_18_BIT; RES_17_BIT; RES_16_BIT]
  /\ (forall w,
        map (fun r => events (print_res_meas_rate (Z.lor (Z.shiftl (enum_val r) 4) lo) w))
          [RES_20_BIT; RES_19_BIT; RES_18_BIT; RES_17_BIT; RES_16_BIT]
        = map (fun line =>
                 [ (clock w, EvStdout (line ++ nl));
                   (clock w, EvStdout ("Unknown measurement rate: " ++ dec lo ++ nl)) ])
            [ "resolution: 20 Bit"; "resolution: 19 Bit"; "resolution: 18 Bit";
              "resolution: 17 Bit"; "resolution: 16 Bit" ])
  /\ (decode_res_rate (Z.lor (Z.shiftl (enum_val RES_13_BIT) 4) lo)
      = (Unknown 5, Unknown lo)
      /\ forall w,
           events (print_res_meas_rate (Z.lor (Z.shiftl (enum_val RES_13_BIT) 4) lo) w)
           = [ (clock w, EvStdout ("Unknown resolution: 5" ++ nl));
               (clock w, EvStdout ("Unknown measurement rate: " ++ dec lo ++ nl)) ]).
Proof.
  intros Hm Hm1 Hm2 Hg Hg4 Hhi Hhi5 Hlo Hlo6.
  assert (Em : switch mode_cases m = None) by now apply decode_mode_default.
  assert (Eg : switch gain_cases g = None) by (apply decode_gain_default; lia).
  assert (Ehi : switch resolution_cases hi = None)
    by (apply decode_resolution_default; lia).
  assert (Elo : switch rate_cases lo = None) by (apply decode_rate_default; lia).
  assert (Dhi : decode_resolution hi = Unknown hi)
    by (unfold decode_resolution, decode; now rewrite Ehi).
  assert (Dlo : decode_rate lo = Unknown lo)
    by (unfold decode_rate, decode; now rewrite Elo).
  assert (Thi : resolution_text hi = "Unknown resolution: " ++ dec hi ++ nl)
    by (unfold resolution_text; rewrite Ehi, fmt_hhu_byte by lia; reflexivity).
  assert (Tlo : measurement_rate_text lo = "Unknown measurement rate: " ++ dec lo ++ nl)
    by (unfold measurement_rate_text; rewrite Elo, fmt_hhu_byte by lia; reflexivity).
  assert (Hres : forall r : resolution_t, 0 <= enum_val r < 16)
    by apply enum_val_resolution_range.
  assert (Hrate : forall t : meas_rate_t, 0 <= enum_val t < 16)
    by apply enum_val_rate_range.
  split; [split|].
  { unfold decode_mode, decode. now rewrite Em. }
  { intros w. unfold print_mode, mode_text. rewrite Em, fmt_u_byte by lia.
    reflexivity. }
  split; [split|].
  { unfold decode_gain, decode. now rewrite Eg. }
  { intros w. unfold print_gain, gain_text. rewrite Eg, fmt_u_byte by lia.
    reflexivity. }
  split; [split|].
  { rewrite decode_res_rate_pack by lia. now rewrite Dhi, Dlo. }
  { intros w. rewrite print_res_meas_rate_pack by lia. now rewrite Thi, Tlo. }
  split.
  { intros t. rewrite decode_res_rate_pack by (lia || apply Hrate).
    now rewrite Dhi, decode_rate_enum. }
  split.
  { intros w. cbn [map].
    rewrite !print_res_meas_rate_pack by (lia || apply Hrate).
    rewrite Thi. reflexivity. }
  split.
  { repeat (apply Forall_cons;
            [rewrite decode_res_rate_pack by (lia || apply Hres);
             rewrite Dlo; reflexivity|]).
    apply Forall_nil. }
  split.
  { intros w. cbn [map].
    rewrite !print_res_meas_rate_pack by (lia || apply Hres).
    rewrite Tlo. reflexivity. }
  split.
  { rewrite decode_res_rate_pack by (lia || apply Hres). now rewrite Dlo. }
  { intros w. rewrite print_res_meas_rate_pack by (lia || apply Hres).
    rewrite Tlo. reflexivity. }
Qed.

(** How often a trace releases the transport. *)
Definition is_disconnect (e : Z * event) : bool :=
  match snd e with
  | EvDisconnect => true
  | _ => false
  end.

Definition disconnects (t : list (Z * event)) : nat :=
  List.length (filter is_disconnect t).

(** A write to the resolution/rate register carries the one byte that
    holds both fields of the pair [main] sets. *)
Definition writes_both_fields (e : Z * event) : Prop :=
  forall dev bytes,
    snd e = EvWrite dev RES_MEAS_RATE_REG bytes ->
    dev = DEVICE /\ bytes = [encode_res_rate RES_18_BIT RATE_100].

Ltac other_event :=
  let H := fresh in
  let Hreg := fresh in
  let dev := fresh in
  let bytes := fresh in
  intros dev bytes H; cbn [snd] in H;
  first [ discriminate H
        | injection H as <- Hreg <-; discriminate Hreg
        | injection H as <- <-; split; reflexivity ].

Ltac each_event := repeat (apply Forall_cons; [other_event|]); try apply Forall_nil.

Lemma writes_both_fields_poll_trace (samples : list poll_sample) :
  forall t : Z, Forall writes_both_fields (poll_trace t samples).
Proof.
  induction samples as [|s samples IH]; intros t; cbn [poll_trace]; [constructor|].
  apply Forall_app. split; [|apply IH].
  unfold poll_events. cbn [map]. each_event.
Qed.

Lemma writes_both_fields_configure (sd : i2c_handle) (part_id t : Z) (b : bus) :
  Forall writes_both_fields (map (pair t) (configure_events sd part_id b)).
Proof.
  unfold configure_events, mode_step_events, gain_step_events,
    res_meas_rate_step_events.
  cbn [map app]. each_event.
Qed.

(** C2.  [set_res_meas_rate] makes one write, of the single byte
    [resolution << 4 | rate]: its high nibble is the resolution and its
    low nibble is the rate of the pair it was given.  Nothing else in
    the program writes that register: whatever [main] is run on, each
    of its writes to the register carries both fields of the pair. *)
Theorem set_res_meas_rate_writes_both_fields :
  (forall (sd : i2c_handle) (resolution : resolution_t) (rate : meas_rate_t)
          (w : world),
      events (set_res_meas_rate sd resolution rate w)
      = [(clock w,
          EvWrite DEVICE RES_MEAS_RATE_REG
            [Z.lor (Z.shiftl (enum_val resolution) 4) (enum_val rate)])])
  /\ (forall (resolution : resolution_t) (rate : meas_rate_t),
        resolution_field (encode_res_rate resolution rate) = enum_val resolution
        /\ measurement_rate_field (encode_res_rate resolution rate) = enum_val rate)
  /\ (forall (argv : list string) (w : world),
        Forall writes_both_fields (events (main argv w))).
Proof.
  split; [|split].
  - intros sd resolution rate w. unfold set_res_meas_rate.
    now rewrite write_register_events, encode_res_rate_exact.
  - intros resolution rate. destruct resolution, rate; split; reflexivity.
  - intros argv w.
    destruct (Nat.lt_ge_cases (List.length argv) 2) as [Hargc|Hargc].
    { rewrite main_run_usage by assumption. cbn [events snd]. each_event. }
    destruct (i2c_connect (nth 1 argv EmptyString) (w_bus w)) as [[sd|] b] eqn:Hc.
    2:{ rewrite (main_run_connect_failed argv w b) by assumption.
        cbn [events snd]. each_event. }
    destruct (main_run_connected argv w sd b Hargc Hc) as [_ ->].
    each_event.
    destruct (negb (bus_read sd PART_ID_REG b =? 178)).
    + unfold logExit, emit. io_run. cbn [events snd app]. each_event.
    + destruct (main_session_run sd (bus_read sd PART_ID_REG b)
                  (with_bus (bus_after_read sd PART_ID_REG b) w)) as [_ ->].
      apply Forall_app. split; [apply writes_both_fields_configure|].
      apply Forall_app. split; [apply writes_both_fields_poll_trace|].
      each_event.
Qed.

(** C5.  When the transport is connected and the part id read from it
    is not 0xB2, [main] reports the value through [logExit] and the
    process ends with [EXIT_FAILURE]: one connect, one read, the report
    and nothing after it.  The transport is not released on this path:
    the trace holds no disconnect. *)
Theorem main_wrong_part_id_exits_without_disconnect
    (argv : list string) (w : world) (sd : i2c_handle) (b : bus) :
  (2 <= List.length argv)%nat ->
  i2c_connect (nth 1 argv EmptyString) (w_bus w) = (Some sd, b) ->
  bus_read sd PART_ID_REG b <> 0xb2 ->
  result (main argv w) = EXIT_FAILURE
  /\ events (main argv w)
     = [ (clock w, EvConnect (nth 1 argv EmptyString) true);
         (clock w, EvRead DEVICE PART_ID_REG 1);
         (clock w,
          EvLogExit "Wrong Part ID: %hhu" [ArgZ (bus_read sd PART_ID_REG b)]) ]
  /\ disconnects (events (main argv w)) = 0%nat.
Proof.
  intros Hargc Hc Hid.
  destruct (main_run_connected argv w sd b Hargc Hc) as [-> ->].
  destruct (Z.eqb_spec (bus_read sd PART_ID_REG b) 178) as [|_]; [contradiction|].
  cbn. repeat split; reflexivity.
Qed.


(** C7.  A sleep that a signal ends early is taken up again for the time
    that was left: an interrupted round of the loop goes on with the
    remainder as its request, and [msleep] of a non-negative time
    returns [true] only when the process has slept exactly the time
    asked for, however many signals arrived on the way. *)
Theorem msleep_resumes_until_elapsed (msec : Z) (w : world) :
  0 <= msec ->
  result (msleep msec w) = true
  /\ clock (final (msleep msec w)) = clock w + msec * 1000000
  /\ (forall (fuel : nat) (ts : timespec) (g : Z) (rest : list Z),
        timespec_valid ts = true ->
        signals w = g :: rest ->
        Z.max 0 g < timespec_ns ts ->
        msleep_loop (S fuel) ts w
        = msleep_loop fuel (timespec_of_ns (timespec_ns ts - Z.max 0 g))
            {| w_bus := w_bus w; errno := EINTR; signals := rest;
               clock := clock w + Z.max 0 g |}).
Proof.
  intros Hmsec. destruct (msleep_run msec w Hmsec) as (Hres & Hclock & _).
  split; [exact Hres|]. split; [exact Hclock|].
  intros fuel ts g rest Hts Hsig Hlt.
  cbn [msleep_loop]. unfold nanosleep. rewrite Hts, Hsig. cbn [negb]. cbn zeta.
  destruct (Z.ltb_spec (Z.max 0 g) (timespec_ns ts)) as [_|]; [|lia].
  cbn [negb Z.eqb andb errno]. now rewrite Z.eqb_refl.
Qed.

(** C8.  The constants of the register map, as the accessors use them:
    the device is addressed at 0x53; the mode goes to register 0x00 as
    0x02 (ALS) or 0x0A (UVS); the gain is register 0x05 and holds the
    ordinal 0 to 4; resolution and rate are register 0x04; the part id is
    register 0x06 and [main] goes on exactly when it reads 0xB2; the
    status is register 0x07; the measurement is read at 0x10, 0x11 and
    0x12 with the lowest byte at 0x10; the interrupt configuration is
    register 0x19. *)
Theorem register_map (sd : i2c_handle) (w : world) :
  (encode_mode ALS_MODE = 0x02 /\ encode_mode UVS_MODE = 0x0A
   /\ (forall m, events (set_mode sd m w)
                 = [(clock w, EvWrite 0x53 0x00 [encode_mode m])])
   /\ events (get_mode sd w) = [(clock w, EvRead 0x53 0x00 1)])
  /\ (map encode_gain [GAIN_1; GAIN_3; GAIN_6; GAIN_9; GAIN_18] = [0; 1; 2; 3; 4]
      /\ (forall g, events (set_gain sd g w)
                    = [(clock w, EvWrite 0x53 0x05 [encode_gain g])])
      /\ events (get_gain sd w) = [(clock w, EvRead 0x53 0x05 1)])
  /\ ((forall r t, events (set_res_meas_rate sd r t w)
                   = [(clock w, EvWrite 0x53 0x04 [encode_res_rate r t])])
      /\ events (get_res_meas_rate sd w) = [(clock w, EvRead 0x53 0x04 1)])
  /\ (events (get_part_id sd w) = [(clock w, EvRead 0x53 0x06 1)]
      /\ forall (argv : list string) (b : bus),
           (2 <= List.length argv)%nat ->
           i2c_connect (nth 1 argv EmptyString) (w_bus w) = (Some sd, b) ->
           (result (main argv w) = EXIT_SUCCESS <-> bus_read sd PART_ID_REG b = 0xB2))
  /\ events (get_status sd w) = [(clock w, EvRead 0x53 0x07 1)]
  /\ (events (read_raw_data sd w)
      = map (pair (clock w))
          [ EvRead 0x53 0x10 1; EvRead 0x53 0x11 1; EvRead 0x53 0x12 1;
            EvDbgPrint ("%hhu %hhu %hhu" ++ nl)
              [ ArgZ (data0_of sd (w_bus w)); ArgZ (data1_of sd (w_bus w));
                ArgZ (data2_of sd (w_bus w)) ] ]
      /\ result (read_raw_data sd w) mod 256 = bus_read sd 0x10 (w_bus w))
  /\ (events (get_int_conf_reg sd w) = [(clock w, EvRead 0x53 0x19 1)]
      /\ forall val, events (set_int_conf_reg sd val w)
                     = [(clock w, EvWrite 0x53 0x19 [to_uint8 val])]).
Proof.
  repeat match goal with |- _ /\ _ => split end; try reflexivity;
    try (intros; unfold set_mode, set_gain, set_res_meas_rate, set_int_conf_reg;
         now rewrite write_register_events).
  all: try (io_run; reflexivity).
  - intros argv b Hargc Hc.
    destruct (main_run_connected argv w sd b Hargc Hc) as [-> _].
    destruct (Z.eqb_spec (bus_read sd PART_ID_REG b) 178) as [Hid|Hid]; cbn [negb].
    + destruct (main_session_run sd (bus_read sd PART_ID_REG b)
                  (with_bus (bus_after_read sd PART_ID_REG b) w)) as [-> _].
      tauto.
    + split; [|contradiction]. unfold logExit, emit. io_run. discriminate.
  - rewrite read_raw_data_run. io_run. reflexivity.
  - rewrite read_raw_data_run. io_run.
    pose proof (bus_read_range sd (UV_DATA_REG + 0) (w_bus w)) as H0.
    pose proof (bus_read_range sd (UV_DATA_REG + 1)
                  (bus_after_read sd (UV_DATA_REG + 0) (w_bus w))) as H1.
    pose proof (bus_read_range sd (UV_DATA_REG + 2)
                  (bus_after_read sd (UV_DATA_REG + 1)
                     (bus_after_read sd (UV_DATA_REG + 0) (w_bus w)))) as H2.
    unfold data0_of, data1_of, data2_of. rewrite raw_data_bytes by assumption.
    change (UV_DATA_REG + 0) with 16 in *.
    set (d0 := bus_read sd 16 (w_bus w)) in *.
    set (d1 := bus_read sd (UV_DATA_REG + 1) _) in *.
    set (d2 := bus_read sd (UV_DATA_REG + 2) _) in *.
    replace (d2 * 65536 + d1 * 256 + d0) with (d0 + (d2 * 256 + d1) * 256) by lia.
    rewrite Z.mod_add by lia. apply Z.mod_small. lia.
Qed.

(** The device keeps what is written to it: a one-byte read of a
    register that was just written gives the byte written. *)
Definition stores_written_bytes : Prop :=
  forall (sd : i2c_handle) (reg v : Z) (b : bus),
    bus_read sd reg (bus_after_write sd reg [v] b) = to_uint8 v.

(** C9.  Each configure block of [main] reads the register, prints what
    it holds, writes the target value, reads the register back and
    prints what it holds then.  On a device that keeps what is written,
    the value read back is the one written, whatever the register held
    before: the mode block ends by printing "mode: UVS", the gain block
    by printing "gain: 18", the last block by printing
    "resolution: 18 Bit" and "measurement rate: 100ms". *)
Theorem configure_blocks_read_back (sd : i2c_handle) (w : world) :
  let b := w_bus w in
  let mode0 := bus_read sd MAIN_CTRL_REG b in
  let mode1 := bus_read sd MAIN_CTRL_REG (readback_bus sd MAIN_CTRL_REG 0x0A b) in
  let gain0 := bus_read sd GAIN_REG b in
  let gain1 := bus_read sd GAIN_REG (readback_bus sd GAIN_REG 4 b) in
  let rr0 := bus_read sd RES_MEAS_RATE_REG b in
  let rr1 := bus_read sd RES_MEAS_RATE_REG (readback_bus sd RES_MEAS_RATE_REG 0x22 b) in
  events (main_mode sd w) = map (pair (clock w)) (mode_step_events mode0 mode1)
  /\ events (main_gain sd w) = map (pair (clock w)) (gain_step_events gain0 gain1)
  /\ events (main_res_meas_rate sd w)
     = map (pair (clock w)) (res_meas_rate_step_events rr0 rr1)
  /\ (stores_written_bytes ->
      (mode1 = 0x0A /\ decode_mode mode1 = Known UVS_MODE
       /\ mode_text mode1 = "mode: UVS" ++ nl)
      /\ (gain1 = 4 /\ decode_gain gain1 = Known GAIN_18
          /\ gain_text gain1 = "gain: 18" ++ nl)
      /\ (rr1 = 0x22 /\ decode_res_rate rr1 = (Known RES_18_BIT, Known RATE_100)
          /\ resolution_text (resolution_field rr1) = "resolution: 18 Bit" ++ nl
          /\ measurement_rate_text (measurement_rate_field rr1)
             = "measurement rate: 100ms" ++ nl)
      /\ events (main_mode sd w)
         = map (pair (clock w))
             [ EvRead 0x53 0x00 1;
               EvStdout ("mode raw: 0x" ++ fmt_hhx mode0 ++ nl);
               EvStdout (mode_text mode0);
               EvStdout ("Setting mode to UVS_MODE." ++ nl);
               EvWrite 0x53 0x00 [0x0A];
               EvRead 0x53 0x00 1;
               EvStdout ("mode: UVS" ++ nl) ]
      /\ events (main_gain sd w)
         = map (pair (clock w))
             [ EvRead 0x53 0x05 1;
               EvStdout ("gain raw: " ++ fmt_u gain0 ++ nl);
               EvStdout (gain_text gain0);
               EvStdout ("Setting gain to 18." ++ nl);
               EvWrite 0x53 0x05 [4];
               EvRead 0x53 0x05 1;
               EvStdout ("gain: 18" ++ nl) ]
      /\ events (main_res_meas_rate sd w)
         = map (pair (clock w))
             [ EvRead 0x53 0x04 1;
               EvStdout (resolution_text (resolution_field rr0));
               EvStdout (measurement_rate_text (measurement_rate_field rr0));
               EvStdout ("Setting resolution to 18 bit and rate to 100ms." ++ nl);
               EvWrite 0x53 0x04 [0x22];
               EvRead 0x53 0x04 1;
               EvStdout ("resolution: 18 Bit" ++ nl);
               EvStdout ("measurement rate: 100ms" ++ nl) ]).
Proof.
  intros b mode0 mode1 gain0 gain1 rr0 rr1.
  rewrite main_mode_run, main_gain_run, main_res_meas_rate_run. io_run.
  split; [reflexivity|]. split; [reflexivity|]. split; [reflexivity|].
  intros Hs.
  assert (Emode : mode1 = 0x0A)
    by (subst mode1; unfold readback_bus; rewrite Hs; reflexivity).
  assert (Egain : gain1 = 4)
    by (subst gain1; unfold readback_bus; rewrite Hs; reflexivity).
  assert (Err : rr1 = 0x22)
    by (subst rr1; unfold readback_bus; rewrite Hs; reflexivity).
  assert (Emode' : bus_read sd MAIN_CTRL_REG
                     (readback_bus sd MAIN_CTRL_REG (encode_mode UVS_MODE) (w_bus w))
                   = 0x0A) by exact Emode.
  assert (Egain' : bus_read sd GAIN_REG
                     (readback_bus sd GAIN_REG (encode_gain GAIN_18) (w_bus w))
                   = 4) by exact Egain.
  assert (Err' : bus_read sd RES_MEAS_RATE_REG
                   (readback_bus sd RES_MEAS_RATE_REG
                      (encode_res_rate RES_18_BIT RATE_100) (w_bus w))
                 = 0x22) by exact Err.
  rewrite Emode, Egain, Err, Emode', Egain', Err'.
  repeat split; reflexivity.
Qed.

(** C10.  A negative argument is refused before any sleep: [msleep]
    sets [errno] to [EINVAL] and returns [false]; the clock has not moved
    and no pending signal has been consumed. *)
Theorem msleep_negative_is_EINVAL (msec : Z) (w : world) :
  msec < 0 ->
  msleep msec w = (false, with_errno EINVAL w, [])
  /\ result (msleep msec w) = false
  /\ errno (final (msleep msec w)) = EINVAL
  /\ clock (final (msleep msec w)) = clock w
  /\ signals (final (msleep msec w)) = signals w.
Proof.
  intros Hmsec. unfold msleep.
  destruct (Z.ltb_spec msec 0) as [_|]; [|lia].
  repeat split; reflexivity.
Qed.

(** ** Further properties of the codec *)

Lemma switch_sound {E} `{CEnum E} (cases : list (E * string)) (x : Z) (e : E) (s : string) :
  switch cases x = Some (e, s) -> x = enum_val e.
Proof.
  induction cases as [|[e' s'] cases IH]; cbn [switch]; [discriminate|].
  destruct (Z.eqb_spec x (enum_val e')) as [Hx|_]; [|exact IH].
  intros Hsome. now injection Hsome as <- _.
Qed.

Lemma decode_sound {E} `{CEnum E} (cases : list (E * string)) (x : Z) (e : E) :
  decode cases x = Known e -> x = enum_val e.
Proof.
  unfold decode. destruct (switch cases x) as [[e' s]|] eqn:Hsw; [|discriminate].
  intros Hk. injection Hk as <-. now apply switch_sound in Hsw.
Qed.

Lemma byte_nibbles (b : Z) :
  0 <= b < 256 ->
  resolution_field b = b / 16 /\ measurement_rate_field b = b mod 16.
Proof.
  intros Hb. unfold resolution_field, measurement_rate_field.
  rewrite Z.shiftr_div_pow2 by lia. change 0x0f with (Z.ones 4).
  rewrite Z.land_ones by lia. change (2 ^ 4) with 16.
  pose proof (Z.mod_pos_bound b 16 ltac:(lia)).
  assert (0 <= b / 16 < 16)
    by (split; [apply Z.div_pos; lia | apply Z.div_lt_upper_bound; lia]).
  split; apply to_uint8_small; lia.
Qed.

(** X1.  What a printer recognises is what the writer would have
    written: a byte printed as a mode, as a gain, or as a resolution and
    a rate is the byte [set_mode], [set_gain] or [set_res_meas_rate]
    makes for that setting.  No two register bytes are printed as the
    same setting. *)
Theorem recognised_byte_is_the_encoding (b : Z) :
  0 <= b < 256 ->
  (forall m, decode_mode b = Known m -> encode_mode m = b)
  /\ (forall g, decode_gain b = Known g -> encode_gain g = b)
  /\ (forall r t, decode_res_rate b = (Known r, Known t) -> encode_res_rate r t = b).
Proof.
  intros Hb. split; [|split].
  - intros m Hm. apply decode_sound in Hm. unfold encode_mode.
    rewrite <- Hm. now apply to_uint8_small.
  - intros g Hg. apply decode_sound in Hg. unfold encode_gain.
    rewrite <- Hg. now apply to_uint8_small.
  - intros r t Hrt. unfold decode_res_rate in Hrt.
    injection Hrt as Hr Ht. apply decode_sound in Hr, Ht.
    destruct (byte_nibbles b Hb) as [Ehi Elo]. rewrite Ehi in Hr. rewrite Elo in Ht.
    rewrite encode_res_rate_exact, <- Hr, <- Ht.
    rewrite (lor_shiftl_low (b / 16) (b mod 16) 4) by (cbn; lia || apply Z.mod_pos_bound; lia).
    change (2 ^ 4) with 16. pose proof (Z.div_mod b 16 ltac:(lia)). lia.
Qed.

Lemma enum_val_resolution_inj (r r' : resolution_t) :
  enum_val r = enum_val r' -> r = r'.
Proof. destruct r, r'; cbn; intros Heq; (reflexivity || discriminate Heq). Qed.

Lemma enum_val_rate_inj (t t' : meas_rate_t) : enum_val t = enum_val t' -> t = t'.
Proof. destruct t, t'; cbn; intros Heq; (reflexivity || discriminate Heq). Qed.

(** X2.  The writers keep settings apart: two modes, two gains, or two
    pairs of resolution and rate that are written as the same byte are
    the same setting.  This holds for all six resolutions, the 13 bit
    one included. *)
Theorem encoded_settings_are_distinct :
  (forall m m', encode_mode m = encode_mode m' -> m = m')
  /\ (forall g g', encode_gain g = encode_gain g' -> g = g')
  /\ (forall r t r' t',
        encode_res_rate r t = encode_res_rate r' t' -> r = r' /\ t = t').
Proof.
  split; [|split].
  - intros m m'. destruct m, m'; cbn; intros Heq; (reflexivity || discriminate Heq).
  - intros g g'. destruct g, g'; cbn; intros Heq; (reflexivity || discriminate Heq).
  - intros r t r' t' Heq. split.
    + apply enum_val_resolution_inj.
      apply (f_equal resolution_field) in Heq.
      rewrite !encode_res_rate_exact, !resolution_field_pack in Heq
        by (apply enum_val_resolution_range || apply enum_val_rate_range).
      exact Heq.
    + apply enum_val_rate_inj.
      apply (f_equal measurement_rate_field) in Heq.
      rewrite !encode_res_rate_exact, !measurement_rate_field_pack in Heq
        by (apply enum_val_resolution_range || apply enum_val_rate_range).
      exact Heq.
Qed.

(** X3.  The three bytes can be read back off the raw value: the byte of
    offset 0 is its low byte, the byte of offset 1 the next, the byte of
    offset 2 the top one.  So two measurements with the same raw value
    had the same three bytes. *)
Theorem raw_data_keeps_the_bytes (d0 d1 d2 : Z) :
  0 <= d0 < 256 -> 0 <= d1 < 256 -> 0 <= d2 < 256 ->
  raw_data d0 d1 d2 mod 256 = d0
  /\ (raw_data d0 d1 d2 / 256) mod 256 = d1
  /\ raw_data d0 d1 d2 / 65536 = d2
  /\ (forall e0 e1 e2,
        0 <= e0 < 256 -> 0 <= e1 < 256 -> 0 <= e2 < 256 ->
        raw_data e0 e1 e2 = raw_data d0 d1 d2 -> e0 = d0 /\ e1 = d1 /\ e2 = d2).
Proof.
  intros H0 H1 H2.
  assert (Hparts : forall a b c, 0 <= a < 256 -> 0 <= b < 256 -> 0 <= c < 256 ->
            (c * 65536 + b * 256 + a) mod 256 = a
            /\ ((c * 65536 + b * 256 + a) / 256) mod 256 = b
            /\ (c * 65536 + b * 256 + a) / 65536 = c).
  { intros a b c Ha Hb Hc.
    assert (E1 : (c * 65536 + b * 256 + a) / 256 = c * 256 + b).
    { replace (c * 65536 + b * 256 + a) with (a + (c * 256 + b) * 256) by lia.
      rewrite Z.div_add, Z.div_small by lia. lia. }
    repeat split.
    - replace (c * 65536 + b * 256 + a) with (a + (c * 256 + b) * 256) by lia.
      rewrite Z.mod_add by lia. apply Z.mod_small. lia.
    - rewrite E1. replace (c * 256 + b) with (b + c * 256) by lia.
      rewrite Z.mod_add by lia. apply Z.mod_small. lia.
    - replace (c * 65536 + b * 256 + a) with (b * 256 + a + c * 65536) by lia.
      rewrite Z.div_add, Z.div_small by lia. lia. }
  rewrite raw_data_bytes by assumption.
  destruct (Hparts d0 d1 d2 H0 H1 H2) as (P0 & P1 & P2).
  split; [exact P0|]. split; [exact P1|]. split; [exact P2|].
  intros e0 e1 e2 He0 He1 He2 Heq. rewrite raw_data_bytes in Heq by assumption.
  destruct (Hparts e0 e1 e2 He0 He1 He2) as (Q0 & Q1 & Q2).
  rewrite Heq in Q0, Q1, Q2. lia.
Qed.

(** ** Further properties of [main] *)

(** The four ways through [main]. *)
Lemma main_cases (argv : list string) (w : world) :
  ((List.length argv < 2)%nat
   /\ main argv w =
      (EXIT_FAILURE, w,
       [(clock w,
         EvStdout ("Usage: " ++ nth 0 argv EmptyString
                   ++ " <USB-DEVICE-TO-FT230-CHIP>" ++ nl))]))
  \/ ((2 <= List.length argv)%nat
      /\ exists b,
           i2c_connect (nth 1 argv EmptyString) (w_bus w) = (None, b)
           /\ main argv w =
              (EXIT_FAILURE, with_bus b w,
               [ (clock w, EvConnect (nth 1 argv EmptyString) false);
                 (clock w,
                  EvLogError ("Could not connect to %s" ++ nl)
                    [ArgS (nth 1 argv EmptyString)]) ]))
  \/ ((2 <= List.length argv)%nat
      /\ exists sd b,
           i2c_connect (nth 1 argv EmptyString) (w_bus w) = (Some sd, b)
           /\ bus_read sd PART_ID_REG b <> 0xb2
           /\ result (main argv w) = EXIT_FAILURE
           /\ events (main argv w)
              = [ (clock w, EvConnect (nth 1 argv EmptyString) true);
                  (clock w, EvRead DEVICE PART_ID_REG 1);
                  (clock w,
                   EvLogExit "Wrong Part ID: %hhu"
                     [ArgZ (bus_read sd PART_ID_REG b)]) ])
  \/ ((2 <= List.length argv)%nat
      /\ exists sd b,
           i2c_connect (nth 1 argv EmptyString) (w_bus w) = (Some sd, b)
           /\ bus_read sd PART_ID_REG b = 0xb2
           /\ result (main argv w) = EXIT_SUCCESS
           /\ events (main argv w)
              = ((clock w, EvConnect (nth 1 argv EmptyString) true)
                 :: (clock w, EvRead DEVICE PART_ID_REG 1)
                 :: map (pair (clock w))
                      (configure_events sd 0xb2 (bus_after_read sd PART_ID_REG b))
                 ++ poll_trace (clock w)
                      (poll_samples sd 10
                         (configured_bus sd (bus_after_read sd PART_ID_REG b)))
                 ++ [(clock w + 10 * 100000000, EvDisconnect)])%list).
Proof.
  destruct (Nat.lt_ge_cases (List.length argv) 2) as [Hargc|Hargc].
  { left. split; [exact Hargc|]. now apply main_run_usage. }
  right.
  destruct (i2c_connect (nth 1 argv EmptyString) (w_bus w)) as [[sd|] b] eqn:Hc.
  2:{ left. split; [exact Hargc|]. exists b. split; [reflexivity|].
      now apply main_run_connect_failed. }
  right. destruct (main_run_connected argv w sd b Hargc Hc) as [Hres Hev].
  destruct (Z.eqb_spec (bus_read sd PART_ID_REG b) 178) as [Hid|Hid];
    cbn [negb] in Hres, Hev.
  - right. split; [exact Hargc|]. exists sd, b.
    destruct (main_session_run sd (bus_read sd PART_ID_REG b)
                (with_bus (bus_after_read sd PART_ID_REG b) w)) as [Hres' Hev'].
    rewrite Hres, Hev, Hres', Hev', Hid. io_run.
    repeat split; reflexivity || assumption.
  - left. split; [exact Hargc|]. exists sd, b.
    rewrite Hres, Hev. unfold logExit, emit. io_run.
    repeat split; reflexivity || assumption.
Qed.


(** X4.  Run with its name alone, without a device argument, [main]
    prints the usage line, which names the program, and ends with
    [EXIT_FAILURE]; it does not touch the transport, [errno] or the
    clock. *)
Theorem main_without_device_prints_usage (argv : list string) (w : world) :
  List.length argv = 1%nat ->
  result (main argv w) = EXIT_FAILURE
  /\ final (main argv w) = w
  /\ events (main argv w)
     = [(clock w,
         EvStdout ("Usage: " ++ nth 0 argv EmptyString
                   ++ " <USB-DEVICE-TO-FT230-CHIP>" ++ nl))].
Proof.
  intros Hargc. rewrite main_run_usage by lia. repeat split; reflexivity.
Qed.

(** X5.  When the connect fails, [main] reports the path it was given
    through [logError] and ends with [EXIT_FAILURE]: no register is read
    or written, the transport is not released, and the bus is left as
    the failed connect left it. *)
Theorem main_connect_failure_is_fatal (argv : list string) (w : world) (b : bus) :
  (2 <= List.length argv)%nat ->
  i2c_connect (nth 1 argv EmptyString) (w_bus w) = (None, b) ->
  result (main argv w) = EXIT_FAILURE
  /\ final (main argv w) = with_bus b w
  /\ events (main argv w)
     = [ (clock w, EvConnect (nth 1 argv EmptyString) false);
         (clock w,
          EvLogError ("Could not connect to %s" ++ nl)
            [ArgS (nth 1 argv EmptyString)]) ].
Proof.
  intros Hargc Hc. rewrite (main_run_connect_failed argv w b) by assumption.
  repeat split; reflexivity.
Qed.


(** *** The order of the transport calls *)

(** Where a session stands: before the connect, connected with the part
    id still unread, past the read of the part id, and after the
    release or a failed connect. *)
Inductive link := Unconnected | Connected | Identified | Closed.

(** A trace keeps the order of a session when the connect comes first
    and once, the first register access is the read of the part id,
    every other access lies between that read and the release, and
    nothing follows a [logExit]. *)
Fixpoint keeps_order (s : link) (t : list event) : bool :=
  match t with
  | [] => true
  | e :: t' =>
      match e with
      | EvConnect _ ok =>
          match s with
          | Unconnected => keeps_order (if ok then Connected else Closed) t'
          | _ => false
          end
      | EvRead _ reg _ =>
          match s with
          | Connected => (reg =? PART_ID_REG) && keeps_order Identified t'
          | Identified => keeps_order Identified t'
          | _ => false
          end
      | EvWrite _ _ _ =>
          match s with
          | Identified => keeps_order Identified t'
          | _ => false
          end
      | EvDisconnect =>
          match s with
          | Identified => keeps_order Closed t'
          | _ => false
          end
      | EvLogExit _ _ =>
          match t' with
          | [] => true
          | _ :: _ => false
          end
      | EvStdout _ | EvLogError _ _ | EvDbgPrint _ _ => keeps_order s t'
      end
  end.

(** Events that leave an identified session where it is. *)
Definition inside_session (e : event) : bool :=
  match e with
  | EvRead _ _ _ | EvWrite _ _ _ | EvStdout _ | EvLogError _ _ | EvDbgPrint _ _ => true
  | EvConnect _ _ | EvDisconnect | EvLogExit _ _ => false
  end.

Lemma keeps_order_inside (l1 l2 : list event) :
  forallb inside_session l1 = true ->
  keeps_order Identified (l1 ++ l2)%list = keeps_order Identified l2.
Proof.
  induction l1 as [|e l1 IH]; [reflexivity|].
  cbn [forallb app]. rewrite andb_true_iff. intros [He Hl1].
  destruct e; cbn in He; try discriminate He; cbn [keeps_order]; now apply IH.
Qed.

Lemma map_snd_pair {A B} (t : A) (l : list B) : map snd (map (pair t) l) = l.
Proof. induction l as [|x l IH]; cbn; [reflexivity | now rewrite IH]. Qed.

Lemma forallb_poll_trace (f : event -> bool) (samples : list poll_sample) :
  (forall s, forallb f (poll_events s) = true) ->
  forall t : Z, forallb f (map snd (poll_trace t samples)) = true.
Proof.
  intros Hround. induction samples as [|s samples IH]; intros t; [reflexivity|].
  cbn [poll_trace]. rewrite map_app, forallb_app, map_snd_pair, Hround, IH.
  reflexivity.
Qed.

(** X7.  Every run of [main] keeps the order of a session: at most one
    connect, and before anything else on the bus; then the read of the
    part id before any other register access; no access after the
    release; nothing at all after [logExit]. *)
Theorem main_keeps_the_order_of_a_session (argv : list string) (w : world) :
  keeps_order Unconnected (map snd (events (main argv w))) = true.
Proof.
  destruct (main_cases argv w)
    as [(Hargc & Hrun)
       |[(Hargc & b & Hc & Hrun)
        |[(Hargc & sd & b & Hc & Hid & Hres & Hev)
         |(Hargc & sd & b & Hc & Hid & Hres & Hev)]]].
  - rewrite Hrun. reflexivity.
  - rewrite Hrun. reflexivity.
  - rewrite Hev. reflexivity.
  - rewrite Hev. cbn [map snd keeps_order]. rewrite Z.eqb_refl. cbn [andb].
    rewrite !map_app, map_snd_pair.
    rewrite keeps_order_inside by reflexivity.
    rewrite keeps_order_inside by (apply forallb_poll_trace; reflexivity).
    reflexivity.
Qed.

(** The registers [main] writes, each with the one byte it writes
    there, and the registers it reads. *)
Definition written_by_main : list (Z * Z) :=
  [ (MAIN_CTRL_REG, 0x0A); (GAIN_REG, 4); (RES_MEAS_RATE_REG, 0x22);
    (INT_CONF_REG, 0x30) ].

Definition read_by_main : list Z :=
  [ PART_ID_REG; MAIN_CTRL_REG; GAIN_REG; RES_MEAS_RATE_REG; MAIN_STATUS_REG;
    INT_CONF_REG; UV_DATA_REG; UV_DATA_REG + 1; UV_DATA_REG + 2 ].

Definition access_ok (e : event) : bool :=
  match e with
  | EvRead dev reg count =>
      (dev =? DEVICE) && (count =? 1) && existsb (Z.eqb reg) read_by_main
  | EvWrite dev reg [v] =>
      (dev =? DEVICE)
      && existsb (fun p => (reg =? fst p) && (v =? snd p)) written_by_main
  | EvWrite _ _ _ => false
  | _ => true
  end.

Definition is_write (e : event) : bool :=
  match e with
  | EvWrite _ _ _ => true
  | _ => false
  end.

(** X8.  Every bus access of [main] goes to device 0x53 and moves one
    byte.  It reads nine registers and writes four, each write with a
    constant: 0x0A to 0x00, 4 to 0x05, 0x22 to 0x04 and 0x30 to 0x19.
    No value read from the device is ever written back, and the part
    id, the status and the data registers are never written. *)
Theorem main_bus_accesses (argv : list string) (w : world) :
  forallb access_ok (map snd (events (main argv w))) = true.
Proof.
  destruct (main_cases argv w)
    as [(Hargc & Hrun)
       |[(Hargc & b & Hc & Hrun)
        |[(Hargc & sd & b & Hc & Hid & Hres & Hev)
         |(Hargc & sd & b & Hc & Hid & Hres & Hev)]]].
  - rewrite Hrun. reflexivity.
  - rewrite Hrun. reflexivity.
  - rewrite Hev. reflexivity.
  - rewrite Hev. cbn [map snd forallb access_ok]. cbn [andb].
    rewrite !map_app, !forallb_app, map_snd_pair.
    rewrite forallb_poll_trace by reflexivity. reflexivity.
Qed.

(** X9.  [main] writes nothing to a device it has not accepted: when it
    ends with [EXIT_FAILURE], for a missing argument, a failed connect
    or a wrong part id, its trace holds no register write. *)
Theorem main_failure_writes_nothing (argv : list string) (w : world) :
  result (main argv w) = EXIT_FAILURE ->
  existsb is_write (map snd (events (main argv w))) = false.
Proof.
  intros Hfail.
  destruct (main_cases argv w)
    as [(Hargc & Hrun)
       |[(Hargc & b & Hc & Hrun)
        |[(Hargc & sd & b & Hc & Hid & Hres & Hev)
         |(Hargc & sd & b & Hc & Hid & Hres & Hev)]]].
  - rewrite Hrun. reflexivity.
  - rewrite Hrun. reflexivity.
  - rewrite Hev. reflexivity.
  - rewrite Hres in Hfail. discriminate Hfail.
Qed.

(** *** Reads that store nothing *)

(** The transport stores no byte on a one-byte read through [sd]. *)
Definition stores_nothing (sd : i2c_handle) : Prop :=
  forall (reg : Z) (b : bus), snd (fst (i2c_read_register sd DEVICE reg 1 b)) = [].

Lemma bus_read_stores_nothing (sd : i2c_handle) (reg : Z) (b : bus) :
  stores_nothing sd -> bus_read sd reg b = 0.
Proof. intros Hn. unfold bus_read, buffer_byte. now rewrite Hn. Qed.

(** X10.  Every getter starts from a zeroed buffer and drops the
    success flag of the read, so a read that stores no byte looks like a
    register that holds 0: all six getters give 0 and [read_raw_data]
    gives 0.  [main] on such a transport takes the part id for 0,
    reports it and ends with [EXIT_FAILURE]. *)
Theorem reads_that_store_nothing_give_zero (sd : i2c_handle) (w : world) :
  stores_nothing sd ->
  result (get_part_id sd w) = 0
  /\ result (get_mode sd w) = 0
  /\ result (get_gain sd w) = 0
  /\ result (get_res_meas_rate sd w) = 0
  /\ result (get_status sd w) = 0
  /\ result (get_int_conf_reg sd w) = 0
  /\ result (read_raw_data sd w) = 0
  /\ (forall (argv : list string) (b : bus),
        (2 <= List.length argv)%nat ->
        i2c_connect (nth 1 argv EmptyString) (w_bus w) = (Some sd, b) ->
        result (main argv w) = EXIT_FAILURE
        /\ events (main argv w)
           = [ (clock w, EvConnect (nth 1 argv EmptyString) true);
               (clock w, EvRead DEVICE PART_ID_REG 1);
               (clock w, EvLogExit "Wrong Part ID: %hhu" [ArgZ 0]) ]).
Proof.
  intros Hn.
  repeat match goal with |- _ /\ _ => split end.
  1-6: io_run; now apply bus_read_stores_nothing.
  - rewrite read_raw_data_run. io_run. unfold data0_of, data1_of, data2_of.
    now rewrite !bus_read_stores_nothing.
  - intros argv b Hargc Hc.
    destruct (main_run_connected argv w sd b Hargc Hc) as [-> ->].
    rewrite bus_read_stores_nothing by assumption. cbn [Z.eqb negb].
    unfold logExit, emit. io_run. split; reflexivity.
Qed.

(** *** [errno] after [msleep] *)

(** The first pending signal arrives before [msec] milliseconds of
    sleep are over. *)
Definition interrupts (msec : Z) (w : world) : bool :=
  match signals w with
  | g :: _ => Z.max 0 g <? msec * 1000000
  | [] => false
  end.

Lemma msleep_loop_errno (fuel : nat) :
  forall (ts : timespec) (w : world),
    timespec_valid ts = true ->
    (List.length (signals w) < fuel)%nat ->
    exists w',
      msleep_loop fuel ts w = Some (0, w')
      /\ errno w'
         = match signals w with
           | g :: _ => if Z.max 0 g <? timespec_ns ts then EINTR else errno w
           | [] => errno w
           end.
Proof.
  induction fuel as [|fuel IH]; intros ts w Hts Hfuel; [lia|].
  pose proof (timespec_valid_ns ts Hts) as Hd.
  cbn [msleep_loop]. unfold nanosleep. rewrite Hts. cbn [negb].
  destruct (signals w) as [|g rest] eqn:Hsig.
  - cbn. eexists. split; reflexivity.
  - cbn zeta. destruct (Z.ltb_spec (Z.max 0 g) (timespec_ns ts)) as [Hlt|Hge].
    + cbn [negb Z.eqb andb errno]. rewrite Z.eqb_refl.
      destruct (IH (timespec_of_ns (timespec_ns ts - Z.max 0 g))
                  {| w_bus := w_bus w; errno := EINTR; signals := rest;
                     clock := clock w + Z.max 0 g |}) as (w' & Hrun & Herrno).
      * apply timespec_of_ns_valid. lia.
      * cbn in *. lia.
      * exists w'. split; [exact Hrun|]. rewrite Herrno. cbn [signals errno].
        destruct rest as [|g' rest']; [reflexivity|]. now destruct (_ <? _).
    + cbn. eexists. split; reflexivity.
Qed.

(** X11.  [msleep] never touches the transport and causes no event.
    It does not reset [errno]: after a sleep that a signal interrupted
    on the way it returns [true] with [errno] left at [EINTR], and after
    an undisturbed sleep [errno] is what it was. *)
Theorem msleep_leaves_errno (msec : Z) (w : world) :
  0 <= msec ->
  result (msleep msec w) = true
  /\ errno (final (msleep msec w)) = (if interrupts msec w then EINTR else errno w)
  /\ w_bus (final (msleep msec w)) = w_bus w
  /\ events (msleep msec w) = [].
Proof.
  intros Hmsec. destruct (msleep_run msec w Hmsec) as (Hres & _ & Hbus).
  split; [exact Hres|]. split; [|split; [exact Hbus | apply msleep_events]].
  unfold msleep, interrupts.
  destruct (Z.ltb_spec msec 0) as [|_]; [lia|].
  destruct (msleep_timespec msec Hmsec) as [Hvalid Hns]. cbv zeta in Hns.
  destruct (msleep_loop_errno (S (List.length (signals w))) _ w Hvalid)
    as (w' & Hrun & Herrno); [lia|].
  rewrite Hrun. cbn [final fst snd]. rewrite Herrno, Hns.
  destruct (signals w); reflexivity.
Qed.

(** *** Configuring twice *)

(** Reading a register does not change what the next read of it gives. *)
Definition repeatable_read (reg : Z) : Prop :=
  forall (sd : i2c_handle) (b : bus),
    bus_read sd reg (bus_after_read sd reg b) = bus_read sd reg b.

Lemma block_bus_reads_target (sd : i2c_handle) (reg v : Z) (b : bus) :
  stores_written_bytes -> repeatable_read reg ->
  bus_read sd reg (block_bus sd reg v b) = to_uint8 v
  /\ bus_read sd reg (readback_bus sd reg v (block_bus sd reg v b)) = to_uint8 v.
Proof.
  intros Hs Hr. unfold block_bus. rewrite Hr. unfold readback_bus.
  now rewrite !Hs.
Qed.

(** X13.  The configure blocks write constants, so running one again
    changes nothing: on a device that keeps what is written and whose
    configuration registers read the same twice in a row, a second run
    of a block finds the target value already there and reads it back
    again, whatever the registers held before the first run. *)
Theorem configure_blocks_are_idempotent (sd : i2c_handle) (w : world) :
  stores_written_bytes ->
  repeatable_read MAIN_CTRL_REG ->
  repeatable_read GAIN_REG ->
  repeatable_read RES_MEAS_RATE_REG ->
  events (main_mode sd (final (main_mode sd w)))
  = map (pair (clock w)) (mode_step_events 0x0A 0x0A)
  /\ events (main_gain sd (final (main_gain sd w)))
     = map (pair (clock w)) (gain_step_events 4 4)
  /\ events (main_res_meas_rate sd (final (main_res_meas_rate sd w)))
     = map (pair (clock w)) (res_meas_rate_step_events 0x22 0x22).
Proof.
  intros Hs Hmode Hgain Hrr.
  rewrite (main_mode_run sd w), (main_gain_run sd w), (main_res_meas_rate_run sd w).
  io_run. rewrite main_mode_run, main_gain_run, main_res_meas_rate_run. io_run.
  destruct (block_bus_reads_target sd MAIN_CTRL_REG (encode_mode UVS_MODE)
              (w_bus w) Hs Hmode) as [-> ->].
  destruct (block_bus_reads_target sd GAIN_REG (encode_gain GAIN_18)
              (w_bus w) Hs Hgain) as [-> ->].
  destruct (block_bus_reads_target sd RES_MEAS_RATE_REG
              (encode_res_rate RES_18_BIT RATE_100) (w_bus w) Hs Hrr) as [-> ->].
  repeat split; reflexivity.
Qed.

End Runs.

(** ** The claims on the simulated sensor *)

Module SimRuns.

Import Sim.

Local Open Scope string_scope.
Local Open Scope Z_scope.

Definition argv : list string := ["i2c"; "/dev/ttyUSB0"].

(** A sensor in ALS mode that measures 0x030201; three signals are on
    their way, 30 ms, 50 ms and 500 ms into the sleeps that follow. *)
Definition sensor : @world sim_driver :=
  sim_world
    [ (PART_ID_REG, 0xb2); (MAIN_CTRL_REG, 0x02); (RES_MEAS_RATE_REG, 0x52);
      (UV_DATA_REG, 0x01); (UV_DATA_REG + 1, 0x02); (UV_DATA_REG + 2, 0x03) ]
    [30000000; 50000000; 500000000].

(** Some other part answers at the address. *)
Definition stranger : @world sim_driver := sim_world [(PART_ID_REG, 0x00)] [].

Lemma sim_stores_written_bytes : @stores_written_bytes sim_driver.
Proof.
  intros sd reg v b. unfold bus_read, bus_after_write, buffer_byte. cbn.
  change (Pos.to_nat 1) with 1%nat. cbn [seq map hd Z.of_nat].
  unfold store. now rewrite Z.add_0_r, Z.eqb_refl.
Qed.

End SimRuns.

Lemma read_raw_data_witness :
  result (@read_raw_data Sim.sim_driver tt SimRuns.sensor) = 0x030201
  /\ events (@read_raw_data Sim.sim_driver tt SimRuns.sensor)
     = [ (0, EvRead 0x53 0x10 1); (0, EvRead 0x53 0x11 1); (0, EvRead 0x53 0x12 1);
         (0, EvDbgPrint ("%hhu %hhu %hhu" ++ nl) [ArgZ 0x01; ArgZ 0x02; ArgZ 0x03]) ]%string.
Proof.
  destruct (@read_raw_data_assembles_24_bits Sim.sim_driver tt SimRuns.sensor)
    as (Hev & _ & _ & _ & _ & _ & _ & _ & Hraw).
  split; [apply Hraw; reflexivity | exact Hev].
Defined.

Lemma unknown_values_are_reported_witness :
  decode_mode 0x07 = Unknown 0x07
  /\ decode_gain 0x09 = Unknown 0x09
  /\ decode_res_rate 0xFF = (Unknown 15, Unknown 15)
  /\ decode_res_rate 0xF2 = (Unknown 15, Known RATE_100)
  /\ decode_res_rate 0x2F = (Known RES_18_BIT, Unknown 15)
  /\ decode_res_rate 0x5F = (Unknown 5, Unknown 15)
  /\ events (print_res_meas_rate 0x5F SimRuns.sensor)
     = [ (0, EvStdout ("Unknown resolution: 5" ++ nl));
         (0, EvStdout ("Unknown measurement rate: 15" ++ nl)) ]%string.
Proof.
  destruct (@unknown_values_are_reported Sim.sim_driver 7 9 15 15)
    as ((Hm & _) & (Hg & _) & (Hrr & _) & Hrate & _ & Hres & _ & (H13 & Hprint));
    try lia.
  split; [exact Hm|]. split; [exact Hg|]. split; [exact Hrr|].
  split; [exact (Hrate RATE_100)|].
  split; [exact (Forall_inv (Forall_inv_tail (Forall_inv_tail Hres)))|].
  split; [exact H13 | exact (Hprint SimRuns.sensor)].
Defined.

Lemma main_wrong_part_id_witness :
  result (main SimRuns.argv SimRuns.stranger) = EXIT_FAILURE
  /\ disconnects (events (main SimRuns.argv SimRuns.stranger)) = 0%nat.
Proof.
  destruct (@main_wrong_part_id_exits_without_disconnect Sim.sim_driver
              SimRuns.argv SimRuns.stranger tt (w_bus SimRuns.stranger))
    as (Hres & _ & Hdisc).
  - cbn. lia.
  - reflexivity.
  - vm_compute. discriminate.
  - split; assumption.
Defined.


Lemma msleep_resumes_witness :
  0 <= 100
  /\ result (msleep 100 SimRuns.sensor) = true
  /\ clock (final (msleep 100 SimRuns.sensor)) = clock SimRuns.sensor + 100 * 1000000.
Proof.
  split; [lia|].
  destruct (@msleep_resumes_until_elapsed Sim.sim_driver 100 SimRuns.sensor)
    as (Hres & Hclock & _); [lia|].
  split; assumption.
Defined.

Lemma register_map_witness :
  result (main SimRuns.argv SimRuns.sensor) = EXIT_SUCCESS
  <-> @bus_read Sim.sim_driver tt PART_ID_REG (w_bus SimRuns.sensor) = 0xB2.
Proof.
  destruct (@register_map Sim.sim_driver tt SimRuns.sensor)
    as (_ & _ & _ & (_ & Hid) & _).
  apply Hid; [cbn; lia | reflexivity].
Defined.

Lemma configure_blocks_read_back_witness :
  @bus_read Sim.sim_driver tt MAIN_CTRL_REG (w_bus SimRuns.sensor) = 0x02
  /\ @bus_read Sim.sim_driver tt MAIN_CTRL_REG
       (@readback_bus Sim.sim_driver tt MAIN_CTRL_REG 0x0A (w_bus SimRuns.sensor))
     = 0x0A
  /\ events (@main_mode Sim.sim_driver tt SimRuns.sensor)
     = map (pair 0)
         [ EvRead 0x53 0x00 1;
           EvStdout ("mode raw: 0x2" ++ nl);
           EvStdout ("mode: ALS" ++ nl);
           EvStdout ("Setting mode to UVS_MODE." ++ nl);
           EvWrite 0x53 0x00 [0x0A];
           EvRead 0x53 0x00 1;
           EvStdout ("mode: UVS" ++ nl) ]%string
  /\ events (@main_gain Sim.sim_driver tt SimRuns.sensor)
     = map (pair 0)
         [ EvRead 0x53 0x05 1;
           EvStdout ("gain raw: 0" ++ nl);
           EvStdout ("gain: 1" ++ nl);
           EvStdout ("Setting gain to 18." ++ nl);
           EvWrite 0x53 0x05 [4];
           EvRead 0x53 0x05 1;
           EvStdout ("gain: 18" ++ nl) ]%string
  /\ events (@main_res_meas_rate Sim.sim_driver tt SimRuns.sensor)
     = map (pair 0)
         [ EvRead 0x53 0x04 1;
           EvStdout ("Unknown resolution: 5" ++ nl);
           EvStdout ("measurement rate: 100ms" ++ nl);
           EvStdout ("Setting resolution to 18 bit and rate to 100ms." ++ nl);
           EvWrite 0x53 0x04 [0x22];
           EvRead 0x53 0x04 1;
           EvStdout ("resolution: 18 Bit" ++ nl);
           EvStdout ("measurement rate: 100ms" ++ nl) ]%string.
Proof.
  split; [reflexivity|].
  destruct (@configure_blocks_read_back Sim.sim_driver tt SimRuns.sensor)
    as (_ & _ & _ & Hback).
  destruct (Hback SimRuns.sim_stores_written_bytes)
    as ((Hmode & _) & _ & _ & Hev_mode & Hev_gain & Hev_rr).
  split; [exact Hmode|]. split; [exact Hev_mode|]. split; [exact Hev_gain|].
  exact Hev_rr.
Defined.

Lemma msleep_negative_witness :
  -1 < 0
  /\ msleep (-1) SimRuns.sensor = (false, with_errno EINVAL SimRuns.sensor, []).
Proof.
  split; [lia|].
  destruct (@msleep_negative_is_EINVAL Sim.sim_driver (-1) SimRuns.sensor)
    as (Hrun & _); [lia|].
  exact Hrun.
Defined.

(** ** The further properties on concrete inputs *)

Lemma recognised_byte_witness :
  0 <= 0x22 < 256 /\ encode_res_rate RES_18_BIT RATE_100 = 0x22.
Proof.
  split; [lia|].
  destruct (recognised_byte_is_the_encoding 0x22) as (_ & _ & Hrr); [lia|].
  apply Hrr. reflexivity.
Defined.

Lemma encoded_settings_witness :
  encode_res_rate RES_13_BIT RATE_25 = 0x50 /\ RES_13_BIT = RES_13_BIT /\ RATE_25 = RATE_25.
Proof.
  split; [reflexivity|].
  destruct encoded_settings_are_distinct as (_ & _ & Hrr).
  apply (Hrr RES_13_BIT RATE_25 RES_13_BIT RATE_25). reflexivity.
Defined.

Lemma raw_data_keeps_the_bytes_witness :
  raw_data 0x01 0x02 0x03 mod 256 = 0x01
  /\ (raw_data 0x01 0x02 0x03 / 256) mod 256 = 0x02
  /\ raw_data 0x01 0x02 0x03 / 65536 = 0x03.
Proof.
  destruct (raw_data_keeps_the_bytes 1 2 3) as (H0 & H1 & H2 & _);
    [lia | lia | lia |].
  split; [exact H0|]. split; [exact H1|]. exact H2.
Defined.

Lemma main_without_device_witness :
  List.length ["i2c"%string] = 1%nat
  /\ result (main ["i2c"%string] SimRuns.sensor) = EXIT_FAILURE
  /\ final (main ["i2c"%string] SimRuns.sensor) = SimRuns.sensor
  /\ events (main ["i2c"%string] SimRuns.sensor)
     = [(0, EvStdout ("Usage: i2c <USB-DEVICE-TO-FT230-CHIP>" ++ nl))]%string.
Proof.
  split; [reflexivity|].
  exact (@main_without_device_prints_usage Sim.sim_driver
           ["i2c"%string] SimRuns.sensor eq_refl).
Defined.

(** The bridge is not plugged in. *)
Definition unplugged : @world Sim.sim_driver :=
  {| w_bus := ({| Sim.regs := Sim.regfile []; Sim.plugged := false |}
               : @bus Sim.sim_driver);
     errno := 0; signals := []; clock := 0 |}.

Lemma main_connect_failure_witness :
  result (main SimRuns.argv unplugged) = EXIT_FAILURE
  /\ events (main SimRuns.argv unplugged)
     = [ (0, EvConnect "/dev/ttyUSB0" false);
         (0, EvLogError ("Could not connect to %s" ++ nl) [ArgS "/dev/ttyUSB0"]) ]%string.
Proof.
  destruct (@main_connect_failure_is_fatal Sim.sim_driver
              SimRuns.argv unplugged (w_bus unplugged)) as (Hres & _ & Hev).
  - cbn. lia.
  - reflexivity.
  - split; assumption.
Defined.


Lemma main_failure_writes_nothing_witness :
  result (main SimRuns.argv SimRuns.stranger) = EXIT_FAILURE
  /\ existsb is_write (map snd (events (main SimRuns.argv SimRuns.stranger))) = false.
Proof.
  assert (Hfail : result (main SimRuns.argv SimRuns.stranger) = EXIT_FAILURE)
    by (vm_compute; reflexivity).
  split; [exact Hfail|].
  exact (@main_failure_writes_nothing Sim.sim_driver SimRuns.argv SimRuns.stranger Hfail).
Defined.

(** A bridge that connects but whose reads fail and store nothing. *)
Definition mute_driver : I2CDriver :=
  {| bus := unit;
     i2c_handle := unit;
     i2c_connect _ b := (Some tt, b);
     i2c_disconnect _ b := b;
     i2c_read_register _ _ _ _ b := ((false, []), b);
     i2c_write_register _ _ _ _ b := (false, b) |}.

Definition mute_world : @world mute_driver :=
  {| w_bus := (tt : @bus mute_driver); errno := 0; signals := []; clock := 0 |}.

Lemma reads_that_store_nothing_witness :
  result (@get_part_id mute_driver tt mute_world) = 0
  /\ result (@read_raw_data mute_driver tt mute_world) = 0
  /\ result (@main mute_driver SimRuns.argv mute_world) = EXIT_FAILURE.
Proof.
  destruct (@reads_that_store_nothing_give_zero mute_driver tt mute_world)
    as (Hid & _ & _ & _ & _ & _ & Hraw & Hmain).
  - intros reg b. reflexivity.
  - split; [exact Hid|]. split; [exact Hraw|].
    destruct (Hmain SimRuns.argv tt) as [Hres _]; [cbn; lia | reflexivity | exact Hres].
Defined.

Lemma msleep_leaves_errno_witness :
  0 <= 100
  /\ errno (final (msleep 100 SimRuns.sensor)) = EINTR
  /\ errno (final (msleep 100 SimRuns.stranger)) = 0.
Proof.
  split; [lia|]. split.
  - destruct (@msleep_leaves_errno Sim.sim_driver 100 SimRuns.sensor)
      as (_ & Herrno & _); [lia|].
    exact Herrno.
  - destruct (@msleep_leaves_errno Sim.sim_driver 100 SimRuns.stranger)
      as (_ & Herrno & _); [lia|].
    exact Herrno.
Defined.

(** ** The success flags of the transport *)

Section Flags.

Context {D : I2CDriver}.

(** What becomes of the flag of a read and of the flag of a write. *)
Variables (fr fw : bool -> bool).

(** The same transport, reporting other success flags. *)
Definition reflagged : I2CDriver :=
  {| bus := @bus D;
     i2c_handle := @i2c_handle D;
     i2c_connect := @i2c_connect D;
     i2c_disconnect := @i2c_disconnect D;
     i2c_read_register sd dev reg count b :=
       let '((ok, stored), b') := @i2c_read_register D sd dev reg count b in
       ((fr ok, stored), b');
     i2c_write_register sd dev reg bytes b :=
       let '(ok, b') := @i2c_write_register D sd dev reg bytes b in
       (fw ok, b') |}.

Definition reworld (w : @world D) : @world reflagged :=
  {| w_bus := (w_bus w : @bus reflagged); errno := errno w;
     signals := signals w; clock := clock w |}.

(** Two computations, one on each transport, that leave the same world
    and trace and give related results. *)
Definition same_run {A B} (R : A -> B -> Prop)
    (m : @IO D A) (m' : @IO reflagged B) : Prop :=
  forall w : @world D,
    R (result (m w)) (result (m' (reworld w)))
    /\ final (m' (reworld w)) = reworld (final (m w))
    /\ events (m' (reworld w)) = events (m w).

Lemma same_run_ret {A B} (R : A -> B -> Prop) (a : A) (b : B) :
  R a b -> same_run R (ret a) (ret b).
Proof. intros HR w. repeat split. exact HR. Qed.

Lemma same_run_bind {A A' B B'} (R : A -> A' -> Prop) (S : B -> B' -> Prop)
    (m : @IO D A) (m' : @IO reflagged A')
    (k : A -> @IO D B) (k' : A' -> @IO reflagged B') :
  same_run R m m' ->
  (forall a a', R a a' -> same_run S (k a) (k' a')) ->
  same_run S (bind m k) (bind m' k').
Proof.
  intros Hm Hk w. destruct (Hm w) as (HR & Hfinal & Hev).
  destruct (Hk _ _ HR (final (m w))) as (HS & Hfinal' & Hev').
  rewrite !result_bind, !final_bind, !events_bind, Hfinal, Hev.
  repeat split; assumption || now f_equal.
Qed.

Lemma same_run_printf (text : string) : same_run eq (printf text) (printf text).
Proof. intros w. repeat split. Qed.

Lemma same_run_logError (fmt : string) (args : list vararg) :
  same_run eq (logError fmt args) (logError fmt args).
Proof. intros w. repeat split. Qed.

Lemma same_run_dbgPrint (fmt : string) (args : list vararg) :
  same_run eq (dbgPrint fmt args) (dbgPrint fmt args).
Proof. intros w. repeat split. Qed.

Lemma same_run_logExit (fmt : string) (args : list vararg) :
  same_run eq (logExit fmt args) (logExit fmt args).
Proof. intros w. repeat split. Qed.

Lemma same_run_connect (path : string) :
  same_run eq (@connect D path) (@connect reflagged path).
Proof.
  intros w. unfold connect, result, final, events. cbn.
  destruct (i2c_connect path (w_bus w)) as [sd b]. repeat split.
Qed.

Lemma same_run_disconnect (sd : @i2c_handle D) :
  same_run eq (@disconnect D sd) (@disconnect reflagged sd).
Proof. intros w. repeat split. Qed.

Lemma same_run_read_register (sd : @i2c_handle D) (dev reg count : Z) :
  same_run (fun r r' => snd r = snd r')
    (@read_register D sd dev reg count) (@read_register reflagged sd dev reg count).
Proof.
  intros w. unfold read_register, result, final, events. cbn.
  destruct (i2c_read_register sd dev reg count (w_bus w)) as [[ok stored] b].
  repeat split.
Qed.

Lemma same_run_write_register (sd : @i2c_handle D) (dev reg : Z) (bytes : list Z) :
  same_run (fun _ _ => True)
    (@write_register D sd dev reg bytes) (@write_register reflagged sd dev reg bytes).
Proof.
  intros w. unfold write_register, result, final, events. cbn.
  destruct (i2c_write_register sd dev reg bytes (w_bus w)) as [ok b].
  repeat split.
Qed.

Lemma msleep_loop_reworld (fuel : nat) :
  forall (ts : timespec) (w : @world D),
    @msleep_loop reflagged fuel ts (reworld w)
    = match @msleep_loop D fuel ts w with
      | Some (res, w') => Some (res, reworld w')
      | None => None
      end.
Proof.
  induction fuel as [|fuel IH]; intros ts w; [reflexivity|].
  cbn [msleep_loop]. unfold nanosleep. cbn [signals reworld clock errno w_bus].
  destruct (negb (timespec_valid ts)); [reflexivity|].
  destruct (signals w) as [|g rest]; [reflexivity|].
  cbn zeta. destruct (Z.max 0 g <? timespec_ns ts); [|reflexivity].
  cbn [negb Z.eqb andb errno]. rewrite Z.eqb_refl.
  exact (IH (timespec_of_ns (timespec_ns ts - Z.max 0 g))
           (@Build_world D (w_bus w) EINTR rest (clock w + Z.max 0 g))).
Qed.

Lemma same_run_msleep (msec : Z) :
  same_run eq (@msleep D msec) (@msleep reflagged msec).
Proof.
  intros w. unfold msleep. destruct (msec <? 0); [repeat split|].
  cbn [signals reworld]. rewrite msleep_loop_reworld.
  destruct (msleep_loop _ _ w) as [[res w']|]; repeat split.
Qed.

Lemma same_run_read_byte (sd : @i2c_handle D) (reg : Z) :
  same_run eq (@read_byte D sd reg) (@read_byte reflagged sd reg).
Proof.
  eapply same_run_bind; [apply same_run_read_register|].
  intros r r' Hr. apply same_run_ret. unfold buffer_byte. now rewrite Hr.
Qed.

Ltac same_step :=
  first
    [ apply same_run_printf | apply same_run_logError | apply same_run_dbgPrint
    | apply same_run_logExit | apply same_run_connect | apply same_run_disconnect
    | apply same_run_msleep | apply same_run_read_byte
    | apply same_run_write_register
    | apply same_run_ret; reflexivity ].

Ltac same_seq :=
  repeat first
    [ same_step
    | eapply same_run_bind;
      [ same_step | let a := fresh in let a' := fresh in let H := fresh in
                    intros a a' H; try subst a' ] ].

Lemma same_run_read_raw_data (sd : @i2c_handle D) :
  same_run eq (@read_raw_data D sd) (@read_raw_data reflagged sd).
Proof.
  unfold read_raw_data.
  eapply same_run_bind; [apply same_run_read_register|]. intros r0 r0' H0.
  eapply same_run_bind; [apply same_run_read_register|]. intros r1 r1' H1.
  eapply same_run_bind; [apply same_run_read_register|]. intros r2 r2' H2.
  unfold buffer_byte. rewrite H0, H1, H2. same_seq.
Qed.

Lemma same_run_main_poll (sd : @i2c_handle D) :
  same_run eq (@main_poll D sd) (@main_poll reflagged sd).
Proof.
  unfold main_poll, set_int_conf_reg.
  change (@get_status D sd) with (@read_byte D sd MAIN_STATUS_REG).
  change (@get_status reflagged sd) with (@read_byte reflagged sd MAIN_STATUS_REG).
  change (@get_int_conf_reg D sd) with (@read_byte D sd INT_CONF_REG).
  change (@get_int_conf_reg reflagged sd) with (@read_byte reflagged sd INT_CONF_REG).
  same_seq.
  eapply same_run_bind; [apply same_run_read_raw_data|]. intros raw raw' <-.
  same_seq.
Qed.

Lemma same_run_for_from (sd : @i2c_handle D) (n : nat) :
  forall i : Z,
    same_run eq (for_from n i (fun _ => @main_poll D sd))
      (for_from n i (fun _ => @main_poll reflagged sd)).
Proof.
  induction n as [|n IH]; intros i; cbn [for_from]; [now apply same_run_ret|].
  eapply same_run_bind; [apply same_run_main_poll|]. intros _ _ _. apply IH.
Qed.

Lemma same_run_print_res_meas_rate (res_meas_rate : Z) :
  same_run eq (@print_res_meas_rate D res_meas_rate)
    (@print_res_meas_rate reflagged res_meas_rate).
Proof. unfold print_res_meas_rate. cbv zeta. same_seq. Qed.

Lemma same_run_main_mode (sd : @i2c_handle D) :
  same_run eq (@main_mode D sd) (@main_mode reflagged sd).
Proof.
  unfold main_mode, print_mode, set_mode.
  change (@get_mode D sd) with (@read_byte D sd MAIN_CTRL_REG).
  change (@get_mode reflagged sd) with (@read_byte reflagged sd MAIN_CTRL_REG).
  same_seq.
Qed.

Lemma same_run_main_gain (sd : @i2c_handle D) :
  same_run eq (@main_gain D sd) (@main_gain reflagged sd).
Proof.
  unfold main_gain, print_gain, set_gain.
  change (@get_gain D sd) with (@read_byte D sd GAIN_REG).
  change (@get_gain reflagged sd) with (@read_byte reflagged sd GAIN_REG).
  same_seq.
Qed.

Lemma same_run_main_res_meas_rate (sd : @i2c_handle D) :
  same_run eq (@main_res_meas_rate D sd) (@main_res_meas_rate reflagged sd).
Proof.
  unfold main_res_meas_rate, set_res_meas_rate.
  change (@get_res_meas_rate D sd) with (@read_byte D sd RES_MEAS_RATE_REG).
  change (@get_res_meas_rate reflagged sd)
    with (@read_byte reflagged sd RES_MEAS_RATE_REG).
  eapply same_run_bind; [apply same_run_read_byte|]. intros rr rr' <-.
  eapply same_run_bind; [apply same_run_print_res_meas_rate|]. intros _ _ _.
  same_seq.
Qed.

Lemma same_run_main_session (sd : @i2c_handle D) (part_id : Z) :
  same_run eq (@main_session D sd part_id) (@main_session reflagged sd part_id).
Proof.
  unfold main_session, for_lt.
  same_seq.
  eapply same_run_bind; [apply same_run_main_mode|]. intros _ _ _. same_seq.
  eapply same_run_bind; [apply same_run_main_gain|]. intros _ _ _. same_seq.
  eapply same_run_bind; [apply same_run_main_res_meas_rate|]. intros _ _ _.
  same_seq.
  eapply same_run_bind; [apply same_run_for_from|]. intros _ _ _.
  same_seq.
Qed.

(** X12.  [main] never looks at the success flag of a register read or
    write: on a transport that reports any other flags, and is the same
    otherwise, it ends with the same status, leaves the same world and
    causes the same events. *)
Theorem main_ignores_the_success_flags (argv : list string) (w : @world D) :
  result (@main reflagged argv (reworld w)) = result (@main D argv w)
  /\ final (@main reflagged argv (reworld w)) = reworld (final (@main D argv w))
  /\ events (@main reflagged argv (reworld w)) = events (@main D argv w).
Proof.
  assert (Hmain : same_run eq (@main D argv) (@main reflagged argv)).
  { unfold main. destruct (Z.of_nat (List.length argv) <? 2).
    - same_seq.
    - eapply same_run_bind; [apply same_run_connect|]. intros c c' <-.
      destruct c as [sd|]; [|same_seq].
      change (@get_part_id D sd) with (@read_byte D sd PART_ID_REG).
      change (@get_part_id reflagged sd) with (@read_byte reflagged sd PART_ID_REG).
      eapply same_run_bind; [apply same_run_read_byte|]. intros part_id p' <-.
      destruct (negb (part_id =? 178));
        [apply same_run_logExit | apply same_run_main_session]. }
  destruct (Hmain w) as (Hres & Hfinal & Hev).
  split; [now symmetry|]. split; assumption.
Qed.

End Flags.

Lemma sim_repeatable_read (reg : Z) : @repeatable_read Sim.sim_driver reg.
Proof. intros sd b. reflexivity. Qed.

Lemma configure_blocks_are_idempotent_witness :
  events (@main_mode Sim.sim_driver tt
            (final (@main_mode Sim.sim_driver tt SimRuns.sensor)))
  = map (pair 0) (mode_step_events 0x0A 0x0A).
Proof.
  destruct (@configure_blocks_are_idempotent Sim.sim_driver tt SimRuns.sensor
              SimRuns.sim_stores_written_bytes
              (sim_repeatable_read MAIN_CTRL_REG)
              (sim_repeatable_read GAIN_REG)
              (sim_repeatable_read RES_MEAS_RATE_REG)) as (Hmode & _).
  exact Hmode.
Defined.
